(** * Weather-Forecast: a shallow embedding of [app.py]

    The program geocodes a place name, fetches a forecast, renders it as
    text and optionally forwards the text to a text-generation endpoint.
    This file embeds the pure helpers ([_weathercode_to_text],
    [format_forecast_text], the response parsing of [hf_summarize]) as total
    functions into a result type, and the functions that talk to the network
    in a small monad that threads the log of requests issued so far. *)

From Stdlib Require Import List ZArith NArith Bool Lia String Ascii.
From Stdlib Require Import DecimalString QArith.
From Stdlib Require Import Floats.SpecFloat.
Import ListNotations.

Set Warnings "-register-all".

Local Open Scope Z_scope.
Local Open Scope list_scope.

(** ** Python strings *)

(** A Python [str] is a sequence of Unicode code points; slicing, [strip] and
    [len] count code points, not bytes. *)
Definition str := list N.

(** An ASCII literal of the source. *)
Definition lit (s : string) : str :=
  map N_of_ascii (list_ascii_of_string s).

(** The characters of the source's literals that are not ASCII, and the
    escape [\n]. *)
Definition nl : str := [10%N].
Definition degree_sign : str := [176%N].
Definition en_dash : str := [8211%N].
Definition em_dash : str := [8212%N].

Definition str_eqb (a b : str) : bool :=
  if list_eq_dec N.eq_dec a b then true else false.

(** [needle in hay] on two strings: substring test. *)
Fixpoint is_prefix (p s : str) : bool :=
  match p, s with
  | [], _ => true
  | _ :: _, [] => false
  | a :: p', b :: s' => N.eqb a b && is_prefix p' s'
  end.

Fixpoint is_substring (needle hay : str) : bool :=
  is_prefix needle hay ||
  match hay with
  | [] => false
  | _ :: hay' => is_substring needle hay'
  end.

(** [str.isspace] on one code point (CPython's [_PyUnicode_IsWhitespace]):
    the characters [str.strip()] removes. *)
Definition py_isspace (c : N) : bool :=
  ((9 <=? c) && (c <=? 13) ||
   (28 <=? c) && (c <=? 32) ||
   (c =? 133) || (c =? 160) || (c =? 5760) ||
   (8192 <=? c) && (c <=? 8202) ||
   (c =? 8232) || (c =? 8233) || (c =? 8239) || (c =? 8287) ||
   (c =? 12288))%N.

Fixpoint lstrip (s : str) : str :=
  match s with
  | [] => []
  | c :: s' => if py_isspace c then lstrip s' else s
  end.

(** [s.strip()] *)
Definition py_strip (s : str) : str := rev (lstrip (rev (lstrip s))).

(** [sep.join(parts)] *)
Fixpoint join (sep : str) (parts : list str) : str :=
  match parts with
  | [] => []
  | [p] => p
  | p :: rest => p ++ sep ++ join sep rest
  end.

(** [str(n)] for an [int]. *)
Definition str_of_Z (z : Z) : str :=
  lit (NilZero.string_of_int (Z.to_int z)).

(** ** JSON values, as [json.loads] builds them *)

(** A [dict] is kept as its items in insertion order (keys are unique). *)
Inductive json : Type :=
| JNone
| JBool (b : bool)
| JInt (z : Z)
| JFloat (f : spec_float)
| JStr (s : str)
| JList (l : list json)
| JDict (items : list (str * json)).

Fixpoint dict_lookup (items : list (str * json)) (k : str) : option json :=
  match items with
  | [] => None
  | (k', v) :: rest => if str_eqb k' k then Some v else dict_lookup rest k
  end.

(** [d.get(k, default)] on the items of a dict. *)
Definition dict_get (items : list (str * json)) (k : str) (default : json)
  : json :=
  match dict_lookup items k with
  | Some x => x
  | None => default
  end.

(** ** Exceptions *)

(** The subclasses of [Exception] the program can meet. [RequestError]
    stands for whatever [requests.get]/[requests.post], [raise_for_status]
    and [r.json()] raise: time-outs, connection and HTTP errors, bodies that
    are not JSON. *)
Inductive exn : Type :=
| RequestError (msg : str)
| AttributeError (obj : json) (attr : string)
| TypeError (op : string) (obj : json)
| KeyError (obj : json) (key : json)
| IndexError (obj : json)
| ValueError (op : string) (obj : json)
| OverflowError (op : string).

Definition res (A : Type) : Type := (exn + A)%type.

Definition rbind {A B} (r : res A) (k : A -> res B) : res B :=
  match r with
  | inl e => inl e
  | inr a => k a
  end.

Declare Scope res_scope.
Delimit Scope res_scope with res.
Notation "x <- r ;; k" := (rbind r (fun x => k))
  (at level 61, r at next level, right associativity) : res_scope.

Fixpoint mapM {A B} (f : A -> res B) (l : list A) : res (list B) :=
  match l with
  | [] => inr []
  | a :: l' =>
      match f a with
      | inl e => inl e
      | inr b =>
          match mapM f l' with
          | inl e => inl e
          | inr bs => inr (b :: bs)
          end
      end
  end.

(** ** What the interpreter and its libraries supply *)

(** The behaviours of Python itself that the program relies on and that no
    property below depends on are taken as they come. *)
Record Runtime : Type := {
  (** [str(e)] of a caught exception *)
  str_of_exn : exn -> str;
  (** [repr] of a float, a list or a dict; it raises when an integer
      inside cannot be printed *)
  repr_json : json -> res str;
  (** [int(s)] of a string *)
  int_of_str : str -> res Z;
  (** [datetime.datetime.fromisoformat(d).strftime("%a %d %b")] *)
  date_label : str -> res str;
  (** [date.fromordinal(n).isoformat()] *)
  date_isoformat : Z -> str;
  (** [sys.get_int_max_str_digits()]: the longest integer, in decimal
      digits, that [str] agrees to print; 0 for no limit (4300 by default
      since CPython 3.11, none before) *)
  int_max_str_digits : Z
}.

(** The decimal digits of [z], the sign left out. *)
Definition int_digits (z : Z) : Z :=
  Z.of_nat (List.length (str_of_Z (Z.abs z))).

(** ** Python operations on JSON values *)

(** [bool(v)] *)
Definition py_truthy (v : json) : bool :=
  match v with
  | JNone => false
  | JBool b => b
  | JInt z => negb (z =? 0)
  | JFloat (S754_zero _) => false
  | JFloat _ => true
  | JStr s => match s with [] => false | _ => true end
  | JList l => match l with [] => false | _ => true end
  | JDict items => match items with [] => false | _ => true end
  end.

(** The value of a finite float [(-1)^s * m * 2^e] against an integer. *)
Definition float_eq_Z (f : spec_float) (n : Z) : bool :=
  match f with
  | S754_zero _ => n =? 0
  | S754_finite s m e =>
      let v := if s then Z.neg m else Z.pos m in
      if 0 <=? e then v * 2 ^ e =? n else v =? n * 2 ^ (- e)
  | _ => false
  end.

(** [v == n] for an integer constant [n]: numbers compare by value, a
    [bool] is the integer 0 or 1, nothing else equals a number. *)
Definition py_eq_int (v : json) (n : Z) : bool :=
  match v with
  | JInt z => z =? n
  | JBool b => (if b then 1 else 0) =? n
  | JFloat f => float_eq_Z f n
  | _ => false
  end.

(** [v in (n1, n2, ...)] *)
Definition py_in_ints (v : json) (ns : list Z) : bool :=
  existsb (py_eq_int v) ns.

(** [int(x)] of a float: the integral part, the sign kept. *)
Definition int_of_float (f : spec_float) : res Z :=
  match f with
  | S754_zero _ => inr 0
  | S754_finite s m e =>
      let mag := if 0 <=? e then Z.shiftl (Z.pos m) e
                 else Z.shiftr (Z.pos m) (- e) in
      inr (if s then - mag else mag)
  | S754_infinity _ => inl (OverflowError "int")
  | S754_nan => inl (ValueError "int" (JFloat f))
  end.

Section WithRuntime.

Variable rt : Runtime.

(** [int(v)] *)
Definition py_int (v : json) : res Z :=
  match v with
  | JInt z => inr z
  | JBool b => inr (if b then 1 else 0)
  | JFloat f => int_of_float f
  | JStr s => int_of_str rt s
  | _ => inl (TypeError "int" v)
  end.

(** [str(n)] of an [int], also what an f-string field [{n}] renders:
    [ValueError] when a limit is set and [n] has more digits. *)
Definition str_of_int (z : Z) : res str :=
  if (0 <? int_max_str_digits rt) && (int_max_str_digits rt <? int_digits z)
  then inl (ValueError "str" (JInt z))
  else inr (str_of_Z z).

(** [str(v)], also what an f-string field [{v}] renders. *)
Definition py_str (v : json) : res str :=
  match v with
  | JStr s => inr s
  | JNone => inr (lit "None")
  | JBool true => inr (lit "True")
  | JBool false => inr (lit "False")
  | JInt z => str_of_int z
  | _ => repr_json rt v
  end.

(** [v.get(key, default)]: only a [dict] has the method. *)
Definition py_get (v : json) (key : string) (default : json) : res json :=
  match v with
  | JDict items => inr (dict_get items (lit key) default)
  | _ => inl (AttributeError v "get")
  end.

(** [iter(v)], as [zip] calls it on each argument: a list gives its
    elements, a string its characters, a dict its keys. *)
Definition py_iter (v : json) : res (list json) :=
  match v with
  | JList l => inr l
  | JStr s => inr (map (fun c => JStr [c]) s)
  | JDict items => inr (map (fun kv => JStr (fst kv)) items)
  | _ => inl (TypeError "iter" v)
  end.

(** [zip(a, b, c, d, e)]: stops as soon as one argument is exhausted. *)
Fixpoint zip5 (a b c d e : list json)
  : list (json * json * json * json * json) :=
  match a, b, c, d, e with
  | x :: a', y :: b', z :: c', u :: d', v :: e' =>
      (x, y, z, u, v) :: zip5 a' b' c' d' e'
  | _, _, _, _, _ => []
  end.

(** ** [_weathercode_to_text] (app.py, lines 75-91) *)

Definition _weathercode_to_text (code : json) : str :=
  if py_in_ints code [0] then lit "Clear sky"
  else if py_in_ints code [1; 2; 3] then lit "Mainly clear to partly cloudy"
  else if py_in_ints code [45; 48] then lit "Fog or depositing rime fog"
  else if py_in_ints code [51; 53; 55] then lit "Drizzle"
  else if py_in_ints code [61; 63; 65] then lit "Rain"
  else if py_in_ints code [71; 73; 75] then lit "Snow"
  else if py_in_ints code [95; 96; 99] then lit "Thunderstorms"
  else lit "Mixed/unknown weather".

(** ** [format_forecast_text] (app.py, lines 57-73) *)

(** Line 68: [datetime.datetime.fromisoformat(d).strftime("%a %d %b")]. *)
Definition day_date (d : json) : res str :=
  match d with
  | JStr s => date_label rt s
  | _ => inl (TypeError "fromisoformat" d)
  end.

(** Line 69. *)
Definition precip_note (p : json) : res str :=
  if (match p with JNone => true | _ => false end) || py_eq_int p 0
  then inr (lit "no significant rain")
  else (s <- py_str p ;; inr (s ++ lit " mm precipitation expected"))%res.

(** The body of the loop, lines 68-72: one rendered day. The fields of the
    f-string of line 72 are evaluated and printed from left to right. *)
Definition day_line (row : json * json * json * json * json) : res str :=
  let '(d, hi, lo, p, wc) := row in
  (date <- day_date d ;;
   note <- precip_note p ;;
   let wc_note := _weathercode_to_text wc in
   lo_int <- py_int lo ;;
   lo_str <- str_of_int lo_int ;;
   hi_int <- py_int hi ;;
   hi_str <- str_of_int hi_int ;;
   inr (date ++ lit ": " ++ wc_note ++ lit ". Temp "
        ++ lo_str ++ degree_sign ++ lit "C" ++ en_dash
        ++ hi_str ++ degree_sign ++ lit "C, " ++ note ++ lit "."))%res.

Definition forecast_header (place_name : str) : str :=
  lit "Weather forecast for " ++ place_name ++ lit ":" ++ nl.

(** The list [lines] when the loop of lines 66-72 is over. *)
Definition forecast_lines (place_name : str) (forecast_json : json)
  : res (list str) :=
  (daily <- py_get forecast_json "daily" (JDict []) ;;
   dates <- py_get daily "time" (JList []) ;;
   tmax <- py_get daily "temperature_2m_max" (JList []) ;;
   tmin <- py_get daily "temperature_2m_min" (JList []) ;;
   precip <- py_get daily "precipitation_sum" (JList []) ;;
   weathercodes <- py_get daily "weathercode" (JList []) ;;
   ds <- py_iter dates ;;
   his <- py_iter tmax ;;
   los <- py_iter tmin ;;
   ps <- py_iter precip ;;
   wcs <- py_iter weathercodes ;;
   rows <- mapM day_line (zip5 ds his los ps wcs) ;;
   inr (forecast_header place_name :: rows))%res.

Definition format_forecast_text (place_name : str) (forecast_json : json)
  : res str :=
  (lines <- forecast_lines place_name forecast_json ;;
   inr (join nl lines))%res.

End WithRuntime.

(** ** The outside world *)

(** One HTTP request, with what the program puts in it. *)
Inductive request : Type :=
| GET (url : str) (params : list (string * json)) (timeout : Z)
| POST (url : str) (headers : list (string * str)) (body : json)
       (timeout : Z).

(** What the program cannot decide: the environment variables, the
    calendar date, and what each request comes back with given the requests
    made before it. A request either raises (time-out, connection or HTTP
    error, a body that is not JSON) or yields the decoded body. *)
Record World : Type := {
  environ : string -> option str;
  today : Z;
  respond : list request -> request -> res json
}.

(** A computation reads the world, appends to the log of requests and
    returns a value or raises. *)
Definition M (A : Type) : Type :=
  World -> list request -> res A * list request.

Definition ret {A} (a : A) : M A := fun _ lg => (inr a, lg).

Definition bind {A B} (m : M A) (k : A -> M B) : M B :=
  fun w lg =>
    match m w lg with
    | (inl e, lg') => (inl e, lg')
    | (inr a, lg') => k a w lg'
    end.

(** A pure step that may raise. *)
Definition lift {A} (r : res A) : M A := fun _ lg => (r, lg).

(** [try: m  except Exception as e: ...] hands the outcome to the caller. *)
Definition try {A} (m : M A) : M (res A) :=
  fun w lg => let '(r, lg') := m w lg in (inr r, lg').

(** [requests.get]/[requests.post], [raise_for_status()] and [.json()]. *)
Definition http (rq : request) : M json :=
  fun w lg => (respond w lg rq, lg ++ [rq]).

(** [os.environ.get(name)] *)
Definition getenv (name : string) : M (option str) :=
  fun w lg => (inr (environ w name), lg).

(** [datetime.date.today().toordinal()] *)
Definition get_today : M Z := fun w lg => (inr (today w), lg).

(** Running a computation from an empty log. *)
Definition run {A} (m : M A) (w : World) : res A * list request := m w [].

Declare Scope io_scope.
Delimit Scope io_scope with io.
Notation "x <- m ;; k" := (bind m (fun x => k))
  (at level 61, m at next level, right associativity) : io_scope.

(** Truth value of an [Optional[str]]. *)
Definition opt_truthy (o : option str) : bool :=
  match o with
  | Some (_ :: _) => true
  | _ => false
  end.

(** ** Configuration (app.py, lines 24-27) *)

Definition GEOCODE_URL : str :=
  lit "https://geocoding-api.open-meteo.com/v1/search".
Definition FORECAST_URL : str := lit "https://api.open-meteo.com/v1/forecast".
Definition HF_INFERENCE_URL : str :=
  lit "https://api-inference.huggingface.co/models/".
Definition HF_MODEL : str := lit "google/flan-t5-small".

(** The double nearest to 0.1. *)
Definition float_0_1 : spec_float :=
  S754_finite false 3602879701896397 (-55).

Section Program.

Variable rt : Runtime.

(** ** [geocode_place] (app.py, lines 30-38) *)

(** [v[key]] for a string key. *)
Definition py_getitem_key (v : json) (key : string) : res json :=
  match v with
  | JDict items =>
      match dict_lookup items (lit key) with
      | Some x => inr x
      | None => inl (KeyError v (JStr (lit key)))
      end
  | _ => inl (TypeError "getitem" v)
  end.

(** [v[0]] *)
Definition py_getitem_0 (v : json) : res json :=
  match v with
  | JList (x :: _) => inr x
  | JList [] => inl (IndexError v)
  | JStr (c :: _) => inr (JStr [c])
  | JStr [] => inl (IndexError v)
  | JDict _ => inl (KeyError v (JInt 0))
  | _ => inl (TypeError "getitem" v)
  end.

Definition geocode_place (place : str) : M json :=
  (let params := [("name"%string, JStr place); ("count"%string, JInt 1);
                  ("language"%string, JStr (lit "en"));
                  ("format"%string, JStr (lit "json"))] in
   data <- http (GET GEOCODE_URL params 10) ;;
   results <- lift (py_get data "results" JNone) ;;
   if py_truthy results then
     rs <- lift (py_getitem_key data "results") ;;
     lift (py_getitem_0 rs)
   else ret JNone)%io.

(** ** [fetch_open_meteo] (app.py, lines 40-55) *)

(** [datetime.timedelta(days=n)] *)
Definition timedelta_days (n : Z) : res Z :=
  if Z.abs n <=? 999999999 then inr n
  else inl (OverflowError "timedelta").

(** [date + timedelta], on ordinals: [date.min] is 1, [date.max] 3652059. *)
Definition date_add (d delta : Z) : res Z :=
  if (1 <=? d + delta) && (d + delta <=? 3652059) then inr (d + delta)
  else inl (OverflowError "date").

Definition fetch_open_meteo (lat lon : json) (days : Z) : M json :=
  (start_date <- get_today ;;
   delta <- lift (timedelta_days (days - 1)) ;;
   end_date <- lift (date_add start_date delta) ;;
   let params :=
     [("latitude"%string, lat);
      ("longitude"%string, lon);
      ("daily"%string, JStr (lit "temperature_2m_max,temperature_2m_min,precipitation_sum,weathercode,sunrise,sunset"));
      ("hourly"%string, JStr (lit "temperature_2m,relativehumidity_2m,precipitation,winddirection_10m,windspeed_10m"));
      ("timezone"%string, JStr (lit "auto"));
      ("start_date"%string, JStr (date_isoformat rt start_date));
      ("end_date"%string, JStr (date_isoformat rt end_date)) ] in
   http (GET FORECAST_URL params 15))%io.

(** ** [hf_summarize] (app.py, lines 93-120) *)

(** ["generated_text" in v] *)
Definition py_contains_key (v : json) (key : string) : res bool :=
  match v with
  | JDict items =>
      inr (match dict_lookup items (lit key) with
           | Some _ => true
           | None => false
           end)
  | JStr s => inr (is_substring (lit key) s)
  | JList l =>
      inr (existsb (fun x => match x with
                             | JStr s => str_eqb s (lit key)
                             | _ => false
                             end) l)
  | _ => inl (TypeError "in" v)
  end.

(** [v.strip()]: only a string has the method. *)
Definition py_strip_method (v : json) : res str :=
  match v with
  | JStr s => inr (py_strip s)
  | _ => inl (AttributeError v "strip")
  end.

Definition unexpected_output (data : json) : res str :=
  (s <- py_str rt data ;;
   inr (lit "(Summarization produced unexpected output) "
        ++ firstn 1000 s))%res.

(** Lines 111-118: what is made of the decoded body. *)
Definition hf_parse (data : json) : res str :=
  (in_first <-
     match data with
     | JList [] => inr false
     | JList (first :: _) => py_contains_key first "generated_text"
     | _ => inr false
     end ;;
   if (in_first : bool) then
     first <- py_getitem_0 data ;;
     g <- py_getitem_key first "generated_text" ;;
     py_strip_method g
   else
     match data with
     | JDict items =>
         match dict_lookup items (lit "generated_text") with
         | Some g => py_strip_method g
         | None => unexpected_output data
         end
     | JStr s => inr (py_strip s)
     | _ => unexpected_output data
     end)%res.

Definition hf_prompt (text : str) : str :=
  lit "Summarize the following weather report in a short, user-friendly paragraph:"
  ++ nl ++ nl ++ text.

Definition hf_request (text model token : str) : request :=
  POST (HF_INFERENCE_URL ++ model)
       [("Authorization"%string, lit "Bearer " ++ token);
        ("Accept"%string, lit "application/json")]
       (JDict [(lit "inputs", JStr (hf_prompt text));
               (lit "parameters",
                JDict [(lit "max_new_tokens", JInt 120);
                       (lit "temperature", JFloat float_0_1)])])
       60.

(** The body of the [try], lines 107-118. *)
Definition hf_attempt (text model token : str) : M str :=
  (data <- http (hf_request text model token) ;;
   lift (hf_parse data))%io.

Definition hf_skipped (text : str) : str :=
  lit "(Hugging Face token not provided; summarization skipped)"
  ++ nl ++ nl ++ firstn 2000 text.

(** The handler, line 120. *)
Definition hf_failed (e : exn) (text : str) : str :=
  lit "(Hugging Face summarization failed: " ++ str_of_exn rt e ++ lit ")"
  ++ nl ++ nl ++ firstn 2000 text.

Definition hf_summarize (text model : str) (hf_token : option str)
    (max_length : Z) : M str :=
  (token <- (if opt_truthy hf_token then ret hf_token
             else getenv "HF_API_TOKEN") ;;
   match token with
   | Some (c :: t) =>
       r <- try (hf_attempt text model (c :: t)) ;;
       match r with
       | inr s => ret s
       | inl e => ret (hf_failed e text)
       end
   | _ => ret (hf_skipped text)
   end)%io.

(** ** [get_forecast_for_place] (app.py, lines 123-160) *)

Definition guidance : str :=
  lit "Please enter a location (e.g., 'Rahim Yar Khan, Pakistan').".

Definition token_not_set (raw_text_summary : str) : str :=
  lit "(HF token not set " ++ em_dash
  ++ lit " set HF_API_TOKEN to enable model summarization)"
  ++ nl ++ nl ++ raw_text_summary.

(** [days] is an [int], so [int(days)] on line 143 is [days]. *)
Definition get_forecast_for_place (place : str) (days : Z) (use_hf : bool)
  : M (str * json) :=
  (let place := py_strip place in
   match place with
   | [] => ret (guidance, JDict [])
   | _ :: _ =>
     r <- try (geocode_place place) ;;
     match r with
     | inl e => ret (lit "Error during geocoding: " ++ str_of_exn rt e,
                     JDict [])
     | inr geo =>
       if negb (py_truthy geo) then
         ret (lit "Location not found: " ++ place, JDict [])
       else
         n <- lift (py_get geo "name" JNone) ;;
         n_str <- lift (py_str rt n) ;;
         c <- lift (py_get geo "country" JNone) ;;
         c_str <- lift (py_str rt c) ;;
         let name := n_str ++ lit ", " ++ c_str in
         lat <- lift (py_get geo "latitude" JNone) ;;
         lon <- lift (py_get geo "longitude" JNone) ;;
         r' <- try (fetch_open_meteo lat lon days) ;;
         match r' with
         | inl e =>
             ret (lit "Error fetching forecast for " ++ name ++ lit ": "
                  ++ str_of_exn rt e, JDict [])
         | inr forecast =>
             raw_text_summary <- lift (format_forecast_text rt name forecast) ;;
             hf_token <- getenv "HF_API_TOKEN" ;;
             summary <-
               (if use_hf && opt_truthy hf_token then
                  hf_summarize raw_text_summary HF_MODEL hf_token 200
                else if use_hf && negb (opt_truthy hf_token) then
                  ret (token_not_set raw_text_summary)
                else ret raw_text_summary) ;;
             ret (summary, forecast)
         end
     end
   end)%io.

End Program.

(** ** The queries of the two GET requests *)

(** [params] of [geocode_place] (line 32). *)
Definition geocode_params (place : str) : list (string * json) :=
  [("name"%string, JStr place); ("count"%string, JInt 1);
   ("language"%string, JStr (lit "en"));
   ("format"%string, JStr (lit "json"))].

(** [params] of [fetch_open_meteo] (lines 44-52), the two dates being
    ordinals. *)
Definition forecast_params (rt : Runtime) (lat lon : json)
    (start_date end_date : Z) : list (string * json) :=
  [("latitude"%string, lat);
   ("longitude"%string, lon);
   ("daily"%string, JStr (lit "temperature_2m_max,temperature_2m_min,precipitation_sum,weathercode,sunrise,sunset"));
   ("hourly"%string, JStr (lit "temperature_2m,relativehumidity_2m,precipitation,winddirection_10m,windspeed_10m"));
   ("timezone"%string, JStr (lit "auto"));
   ("start_date"%string, JStr (date_isoformat rt start_date));
   ("end_date"%string, JStr (date_isoformat rt end_date))].

(** ** A reference runtime *)

(** One concrete [Runtime], on which the program can be evaluated. It follows
    CPython 3.11 on the values met in the examples of this file: messages of
    the built-in exceptions, [repr] of containers of [None], booleans,
    integers and plain strings, [int] of a plain decimal numeral, calendar
    dates written [YYYY-MM-DD]. Every theorem below is stated for an
    arbitrary runtime. *)
Module CPython.

Definition type_name (v : json) : str :=
  match v with
  | JNone => lit "NoneType"
  | JBool _ => lit "bool"
  | JInt _ => lit "int"
  | JFloat _ => lit "float"
  | JStr _ => lit "str"
  | JList _ => lit "list"
  | JDict _ => lit "dict"
  end.

Definition quoted (s : str) : str := lit "'" ++ s ++ lit "'".

(** [repr] of a float: whole numbers and the special values only. *)
Definition repr_float (f : spec_float) : str :=
  match f with
  | S754_zero s => if s then lit "-0.0" else lit "0.0"
  | S754_infinity s => if s then lit "-inf" else lit "inf"
  | S754_nan => lit "nan"
  | S754_finite s m e =>
      if 0 <=? e
      then str_of_Z ((if s then Z.neg m else Z.pos m) * 2 ^ e) ++ lit ".0"
      else lit "<float>"
  end.

Fixpoint repr (v : json) : str :=
  match v with
  | JNone => lit "None"
  | JBool true => lit "True"
  | JBool false => lit "False"
  | JInt z => str_of_Z z
  | JFloat f => repr_float f
  | JStr s => quoted s
  | JList l => lit "[" ++ join (lit ", ") (map repr l) ++ lit "]"
  | JDict items =>
      lit "{"
      ++ join (lit ", ")
           (map (fun kv => quoted (fst kv) ++ lit ": " ++ repr (snd kv)) items)
      ++ lit "}"
  end.

(** The default limit on the digits of a printed integer. *)
Definition max_str_digits : Z := 4300.

(** No integer inside is too long to print. *)
Fixpoint printable (v : json) : bool :=
  match v with
  | JInt z => int_digits z <=? max_str_digits
  | JList l => forallb printable l
  | JDict items => forallb (fun kv => printable (snd kv)) items
  | _ => true
  end.

Definition repr_checked (v : json) : res str :=
  if printable v then inr (repr v) else inl (ValueError "str" v).

Definition exn_message (e : exn) : str :=
  match e with
  | RequestError msg => msg
  | AttributeError obj attr =>
      quoted (type_name obj) ++ lit " object has no attribute "
      ++ quoted (lit attr)
  | TypeError "in" obj =>
      lit "argument of type " ++ quoted (type_name obj)
      ++ lit " is not iterable"
  | TypeError "iter" obj =>
      quoted (type_name obj) ++ lit " object is not iterable"
  | TypeError "getitem" (JStr _) =>
      lit "string indices must be integers, not 'str'"
  | TypeError "getitem" (JList _) =>
      lit "list indices must be integers or slices, not str"
  | TypeError "getitem" obj =>
      quoted (type_name obj) ++ lit " object is not subscriptable"
  | TypeError "int" obj =>
      lit "int() argument must be a string, a bytes-like object or a real number, not "
      ++ quoted (type_name obj)
  | TypeError _ _ => lit "fromisoformat: argument must be str"
  | KeyError _ key => repr key
  | IndexError (JStr _) => lit "string index out of range"
  | IndexError _ => lit "list index out of range"
  | ValueError "int" (JFloat _) => lit "cannot convert float NaN to integer"
  | ValueError "int" obj =>
      lit "invalid literal for int() with base 10: " ++ repr obj
  | ValueError "str" _ =>
      lit "Exceeds the limit (4300 digits) for integer string conversion; use sys.set_int_max_str_digits() to increase the limit"
  | ValueError _ obj => lit "Invalid isoformat string: " ++ repr obj
  | OverflowError "int" => lit "cannot convert float infinity to integer"
  | OverflowError "timedelta" =>
      lit "days=1000000000; must have magnitude <= 999999999"
  | OverflowError _ => lit "date value out of range"
  end.

(** Decimal digits. *)
Definition digit (c : N) : option Z :=
  if ((48 <=? c) && (c <=? 57))%N then Some (Z.of_N c - 48) else None.

Fixpoint digits_value (acc : Z) (s : str) : option Z :=
  match s with
  | [] => Some acc
  | c :: s' =>
      match digit c with
      | Some d => digits_value (10 * acc + d) s'
      | None => None
      end
  end.

Definition numeral (s : str) : option Z :=
  match s with
  | [] => None
  | _ :: _ => digits_value 0 s
  end.

(** A numeral of no more digits than the limit. *)
Definition short_numeral (s : str) : option Z :=
  if max_str_digits <? Z.of_nat (List.length s) then None else numeral s.

(** [int(s)]: surrounding whitespace, an optional sign, decimal digits, no
    more of them than the limit. *)
Definition parse_int (s : str) : res Z :=
  let bad := inl (ValueError "int" (JStr s)) in
  match py_strip s with
  | 45%N :: ds =>
      match short_numeral ds with Some n => inr (- n) | None => bad end
  | 43%N :: ds =>
      match short_numeral ds with Some n => inr n | None => bad end
  | ds => match short_numeral ds with Some n => inr n | None => bad end
  end.

(** The proleptic Gregorian calendar, on ordinals ([0001-01-01] is day 1). *)
Definition is_leap (y : Z) : bool :=
  ((y mod 4 =? 0) && negb (y mod 100 =? 0)) || (y mod 400 =? 0).

Definition days_in_month (y m : Z) : Z :=
  if m =? 2 then (if is_leap y then 29 else 28)
  else if (m =? 4) || (m =? 6) || (m =? 9) || (m =? 11) then 30
  else 31.

Definition ordinal_of (y m d : Z) : Z :=
  let y' := if m <=? 2 then y - 1 else y in
  let era := y' / 400 in
  let yoe := y' - era * 400 in
  let doy := (153 * (if 2 <? m then m - 3 else m + 9) + 2) / 5 + d - 1 in
  let doe := yoe * 365 + yoe / 4 - yoe / 100 + doy in
  era * 146097 + doe - 305.

Definition civil_of (n : Z) : Z * Z * Z :=
  let z := n + 305 in
  let era := z / 146097 in
  let doe := z - era * 146097 in
  let yoe := (doe - doe / 1460 + doe / 36524 - doe / 146096) / 365 in
  let doy := doe - (365 * yoe + yoe / 4 - yoe / 100) in
  let mp := (5 * doy + 2) / 153 in
  let d := doy - (153 * mp + 2) / 5 + 1 in
  let m := if mp <? 10 then mp + 3 else mp - 9 in
  let y := yoe + era * 400 in
  ((if m <=? 2 then y + 1 else y), m, d).

Definition pad (width : nat) (z : Z) : str :=
  let s := str_of_Z z in
  repeat 48%N (width - List.length s) ++ s.

Definition isoformat (n : Z) : str :=
  let '(y, m, d) := civil_of n in
  pad 4 y ++ lit "-" ++ pad 2 m ++ lit "-" ++ pad 2 d.

Definition weekday_abbr (n : Z) : str :=
  nth (Z.to_nat ((n + 6) mod 7))
      [lit "Mon"; lit "Tue"; lit "Wed"; lit "Thu"; lit "Fri"; lit "Sat";
       lit "Sun"] [].

Definition month_abbr (m : Z) : str :=
  nth (Z.to_nat (m - 1))
      [lit "Jan"; lit "Feb"; lit "Mar"; lit "Apr"; lit "May"; lit "Jun";
       lit "Jul"; lit "Aug"; lit "Sep"; lit "Oct"; lit "Nov"; lit "Dec"] [].

(** [fromisoformat(s).strftime("%a %d %b")] for [s] of the form
    [YYYY-MM-DD]. *)
Definition strftime_a_d_b (s : str) : res str :=
  let bad := inl (ValueError "fromisoformat" (JStr s)) in
  match s with
  | [y1; y2; y3; y4; 45%N; m1; m2; 45%N; d1; d2] =>
      match numeral [y1; y2; y3; y4], numeral [m1; m2], numeral [d1; d2] with
      | Some y, Some m, Some d =>
          if (1 <=? y) && (1 <=? m) && (m <=? 12) && (1 <=? d)
             && (d <=? days_in_month y m)
          then inr (weekday_abbr (ordinal_of y m d) ++ lit " " ++ pad 2 d
                    ++ lit " " ++ month_abbr m)
          else bad
      | _, _, _ => bad
      end
  | _ => bad
  end.

Definition runtime : Runtime := {|
  str_of_exn := exn_message;
  repr_json := repr_checked;
  int_of_str := parse_int;
  date_label := strftime_a_d_b;
  date_isoformat := isoformat;
  int_max_str_digits := max_str_digits
|}.

End CPython.

(** ** The specification's side *)

(** The table of the weather codes as the specification gives it: buckets
    in order, the first bucket holding the code wins. *)
Definition weather_table : list (list Z * str) :=
  [([0], lit "Clear sky");
   ([1; 2; 3], lit "Mainly clear to partly cloudy");
   ([45; 48], lit "Fog or depositing rime fog");
   ([51; 53; 55], lit "Drizzle");
   ([61; 63; 65], lit "Rain");
   ([71; 73; 75], lit "Snow");
   ([95; 96; 99], lit "Thunderstorms")].

Fixpoint first_match (table : list (list Z * str)) (code : Z) : str :=
  match table with
  | [] => lit "Mixed/unknown weather"
  | (codes, phrase) :: rest =>
      if existsb (Z.eqb code) codes then phrase else first_match rest code
  end.

Definition table_phrase (code : Z) : str := first_match weather_table code.

Definition listed_codes : list Z := List.concat (map fst weather_table).

(** The three shapes of a response the specification names. *)
Inductive shape : Type :=
| SeqFirstGenerated (g : json)
| ObjGenerated (g : json)
| BareString (s : str)
| OtherShape.

Definition shape_of (data : json) : shape :=
  match data with
  | JList (JDict items :: _) =>
      match dict_lookup items (lit "generated_text") with
      | Some g => SeqFirstGenerated g
      | None => OtherShape
      end
  | JDict items =>
      match dict_lookup items (lit "generated_text") with
      | Some g => ObjGenerated g
      | None => OtherShape
      end
  | JStr s => BareString s
  | _ => OtherShape
  end.

(** The parsing as the specification words it: the generated text of the
    three shapes, trimmed; the stringified response, truncated, for any
    other. *)
Definition spec_parse (rt : Runtime) (data : json) : res str :=
  match shape_of data with
  | SeqFirstGenerated g | ObjGenerated g =>
      (s <- py_str rt g ;; inr (py_strip s))%res
  | BareString s => inr (py_strip s)
  | OtherShape => unexpected_output rt data
  end.

(** The skip notice as the specification quotes it. *)
Definition spec_skip_prefix : str :=
  lit "(token not provided; summarization skipped)".

(** The rational a number of the forecast stands for: an integer, or a
    finite float [(-1)^s * m * 2^e]. *)
Definition float_value (f : spec_float) : option Q :=
  match f with
  | S754_zero _ => Some 0%Q
  | S754_finite s m e =>
      let v := if s then Z.neg m else Z.pos m in
      Some (if 0 <=? e then (v * 2 ^ e) # 1
            else v # (Z.to_pos (2 ^ (- e))))
  | _ => None
  end.

Definition number_value (v : json) : option Q :=
  match v with
  | JInt z => Some (z # 1)
  | JFloat f => float_value f
  | _ => None
  end.

(** [line] is the day of [row] as the specification words it,
    "<date>: <weather phrase>. Temp <low>C-<high>C, <precip note>." with the
    degree sign before each C and an en dash between the temperatures: every
    part could be computed, the two temperatures are integers in decimal,
    and [line] puts the parts together. *)
Definition rendered_day (rt : Runtime)
    (row : json * json * json * json * json) (line : str) : Prop :=
  let '(d, hi, lo, p, wc) := row in
  exists date note low high,
    day_date rt d = inr date
    /\ precip_note rt p = inr note
    /\ py_int rt lo = inr low
    /\ str_of_int rt low = inr (str_of_Z low)
    /\ py_int rt hi = inr high
    /\ str_of_int rt high = inr (str_of_Z high)
    /\ line = date ++ lit ": " ++ _weathercode_to_text wc ++ lit ". Temp "
              ++ str_of_Z low ++ degree_sign ++ lit "C" ++ en_dash
              ++ str_of_Z high ++ degree_sign ++ lit "C, " ++ note
              ++ lit ".".



(** 21.9 and -0.5 as doubles. *)
Definition float_21_9 : spec_float :=
  S754_finite false 6164301989963366 (-48).
Definition float_minus_0_5 : spec_float :=
  S754_finite true 4503599627370496 (-53).

(** ** Sample worlds *)

Module Sample.

(** No credential in the environment, and a network that is down. *)
Definition offline : World := {|
  environ := fun _ => None;
  today := 738886;
  respond := fun _ _ => inl (RequestError (lit "connection refused"))
|}.

(** A world whose three endpoints answer with fixed bodies. *)
Definition service (token : option str) (geo forecast summary : res json)
  : World := {|
  environ := fun _ => token;
  today := 738886;
  respond := fun _ rq =>
    match rq with
    | GET url _ _ => if str_eqb url GEOCODE_URL then geo else forecast
    | POST _ _ _ _ => summary
    end
|}.

Definition lahore_items : list (str * json) :=
  [(lit "name", JStr (lit "Lahore"));
   (lit "country", JStr (lit "Pakistan"));
   (lit "latitude", JInt 31);
   (lit "longitude", JInt 74)].

Definition lahore : json :=
  JDict [(lit "results", JList [JDict lahore_items])].

(** Five dates, three maxima. *)
Definition uneven : json :=
  JDict [(lit "daily",
          JDict [(lit "time",
                  JList [JStr (lit "2024-01-01"); JStr (lit "2024-01-02");
                         JStr (lit "2024-01-03"); JStr (lit "2024-01-04");
                         JStr (lit "2024-01-05")]);
                 (lit "temperature_2m_max",
                  JList [JFloat float_21_9; JInt 20; JInt 19]);
                 (lit "temperature_2m_min",
                  JList [JFloat float_minus_0_5; JInt 8; JInt 7; JInt 6;
                         JInt 5]);
                 (lit "precipitation_sum",
                  JList [JNone; JInt 0; JInt 3; JInt 0; JInt 0]);
                 (lit "weathercode",
                  JList [JInt 0; JInt 2; JInt 61; JInt 200; JInt 95])])].

Definition generated (s : str) : json :=
  JList [JDict [(lit "generated_text", JStr s)]].

(** Three days, the minimum of the second one missing. *)
Definition with_null : json :=
  JDict [(lit "daily",
          JDict [(lit "time",
                  JList [JStr (lit "2024-01-01"); JStr (lit "2024-01-02");
                         JStr (lit "2024-01-03")]);
                 (lit "temperature_2m_max",
                  JList [JInt 21; JInt 20; JInt 19]);
                 (lit "temperature_2m_min",
                  JList [JInt 9; JNone; JInt 7]);
                 (lit "precipitation_sum",
                  JList [JNone; JInt 0; JInt 3]);
                 (lit "weathercode",
                  JList [JInt 0; JInt 2; JInt 61])])].

(** A credential in the environment, and a summarization endpoint that
    behaves as given. *)
Definition summarizing (summary : res json) : World :=
  service (Some (lit "hf_x")) (inr lahore) (inr (JDict [])) summary.

(** A sequence whose first element is not an object, and an object whose
    generated text is not a string. *)
Definition first_not_object : json := JList [JInt 5].
Definition generated_number : json :=
  JDict [(lit "generated_text", JInt 5)].

Definition sunny : str := lit "Sunny.".

(** A credential in the environment, a forecast, and a summarization
    endpoint that generates the given text. *)
Definition answering (summary : str) : World :=
  service (Some (lit "hf_x")) (inr lahore) (inr uneven)
    (inr (generated summary)).

End Sample.

(** * Properties *)

Arguments lit : simpl never.

(** ** Strings *)

Lemma lstrip_all_space (s : str) :
  forallb py_isspace s = true -> lstrip s = [].
Proof.
  induction s as [|c s IH]; simpl; [reflexivity|].
  intros H. apply andb_true_iff in H as [Hc Hs].
  rewrite Hc. now apply IH.
Qed.


Lemma py_strip_all_space (s : str) :
  forallb py_isspace s = true -> py_strip s = [].
Proof.
  intros H. unfold py_strip. now rewrite (lstrip_all_space s H).
Qed.

Lemma lstrip_suffix (s : str) : exists p, s = p ++ lstrip s /\
  forallb py_isspace p = true.
Proof.
  induction s as [|c s [p [IH1 IH2]]]; simpl.
  - exists []. now split.
  - destruct (py_isspace c) eqn:E.
    + exists (c :: p). simpl. rewrite E, IH2. split; [now f_equal | reflexivity].
    + exists []. now split.
Qed.



(** ** The table of weather codes *)

(** C3: on every integer code [_weathercode_to_text] returns the phrase of
    the first bucket of the table that holds the code, and
    "Mixed/unknown weather" for every code the table does not list, 200
    among them. *)
Theorem weathercode_to_text_table (z : Z) :
  _weathercode_to_text (JInt z) = table_phrase z
  /\ (In z listed_codes
      \/ _weathercode_to_text (JInt z) = lit "Mixed/unknown weather")
  /\ _weathercode_to_text (JInt 200) = lit "Mixed/unknown weather".
Proof.
  unfold _weathercode_to_text, table_phrase, py_in_ints, listed_codes.
  cbn [weather_table first_match existsb py_eq_int map fst List.concat app].
  repeat match goal with
  | |- context [Z.eqb z ?k] =>
      destruct (Z.eqb_spec z k) as [->|_];
      [ split; [reflexivity | split; [left; cbn; tauto | reflexivity]] | ]
  end.
  cbn [orb]. split; [reflexivity | split; [right|]; reflexivity].
Qed.

(** ** The summarizer *)

Section Summarizer.

Variable rt : Runtime.

(** The credential [hf_summarize] ends up with (line 96). *)
Lemma hf_summarize_token text model hf_token max_length w lg :
  hf_summarize rt text model hf_token max_length w lg =
  match (if opt_truthy hf_token then hf_token
         else environ w "HF_API_TOKEN") with
  | Some (c :: t) =>
      match hf_attempt rt text model (c :: t) w lg with
      | (inr s, lg') => (inr s, lg')
      | (inl e, lg') => (inr (hf_failed rt e text), lg')
      end
  | _ => (inr (hf_skipped text), lg)
  end.
Proof.
  unfold hf_summarize, bind, try, ret, getenv.
  destruct (opt_truthy hf_token); cbv beta iota.
  - destruct hf_token as [[|c t]|]; try reflexivity.
    destruct (hf_attempt rt text model (c :: t) w lg) as [[e|s] lg'];
      reflexivity.
  - destruct (environ w "HF_API_TOKEN") as [[|c t]|]; try reflexivity.
    destruct (hf_attempt rt text model (c :: t) w lg) as [[e|s] lg'];
      reflexivity.
Qed.

(** The attempt issues exactly one request. *)
Lemma hf_attempt_log text model token w lg :
  hf_attempt rt text model token w lg =
  (rbind (respond w lg (hf_request text model token)) (hf_parse rt),
   lg ++ [hf_request text model token]).
Proof.
  unfold hf_attempt, bind, http, lift, rbind.
  destruct (respond w lg (hf_request text model token)); reflexivity.
Qed.

(** C1: whatever the text, the model, the credential and the behaviour of
    the endpoint, [hf_summarize] returns a string and raises nothing; and
    when the call raises [e] -- the request itself, or the parsing of its
    body -- the string is the failure notice carrying [str(e)], followed by
    the first 2000 characters of the text. *)
Theorem hf_summarize_never_raises text model hf_token max_length w lg :
  (exists s lg',
     hf_summarize rt text model hf_token max_length w lg = (inr s, lg'))
  /\ (forall token e lg',
        (if opt_truthy hf_token then hf_token
         else environ w "HF_API_TOKEN") = Some token ->
        token <> [] ->
        hf_attempt rt text model token w lg = (inl e, lg') ->
        hf_summarize rt text model hf_token max_length w lg =
        (inr (lit "(Hugging Face summarization failed: " ++ str_of_exn rt e
              ++ lit ")" ++ nl ++ nl ++ firstn 2000 text), lg'))
  /\ (forall token e,
        respond w lg (hf_request text model token) = inl e
        \/ (exists data,
              respond w lg (hf_request text model token) = inr data
              /\ hf_parse rt data = inl e) ->
        hf_attempt rt text model token w lg =
        (inl e, lg ++ [hf_request text model token])).
Proof.
  split; [|split].
  - rewrite hf_summarize_token.
    destruct (if opt_truthy hf_token then hf_token
              else environ w "HF_API_TOKEN") as [[|c t]|]; eauto.
    destruct (hf_attempt rt text model (c :: t) w lg) as [[e|s] lg']; eauto.
  - intros token e lg' Htok Hne Hrun.
    rewrite hf_summarize_token, Htok.
    destruct token as [|c t]; [congruence|].
    rewrite Hrun. reflexivity.
  - intros token e H. rewrite hf_attempt_log.
    destruct H as [-> | [data [-> H]]]; cbn; [reflexivity|].
    now rewrite H.
Qed.

(** C5, as the code has it: with no credential passed and none in the
    environment, [hf_summarize] issues no request and returns the notice
    "(Hugging Face token not provided; summarization skipped)", a blank
    line, and the first 2000 characters of the text, themselves unchanged. *)
Theorem hf_summarize_without_token text model hf_token max_length w lg :
  opt_truthy hf_token = false ->
  opt_truthy (environ w "HF_API_TOKEN") = false ->
  hf_summarize rt text model hf_token max_length w lg =
  (inr (lit "(Hugging Face token not provided; summarization skipped)"
        ++ nl ++ nl ++ firstn 2000 text), lg)
  /\ firstn 2000 text ++ skipn 2000 text = text
  /\ (List.length (firstn 2000 text) <= 2000)%nat.
Proof.
  intros H1 H2. split; [|split].
  - rewrite hf_summarize_token, H1.
    destruct (environ w "HF_API_TOKEN") as [[|c t]|];
      try reflexivity; discriminate.
  - apply firstn_skipn.
  - apply firstn_le_length.
Qed.

(** What the parsing does on each shape of response. *)
Lemma hf_parse_cases (data : json) :
  match shape_of data with
  | SeqFirstGenerated g | ObjGenerated g =>
      hf_parse rt data = py_strip_method g
  | BareString s => hf_parse rt data = inr (py_strip s)
  | OtherShape =>
      match data with
      | JList (JDict _ :: _) => hf_parse rt data = unexpected_output rt data
      | JList (first :: _) =>
          hf_parse rt data = unexpected_output rt data
          \/ exists op, hf_parse rt data = inl (TypeError op first)
      | _ => hf_parse rt data = unexpected_output rt data
      end
  end.
Proof.
  destruct data as [| b | z | f | s | l | items]; cbn; try reflexivity.
  - destruct l as [|first l]; [reflexivity|].
    destruct first as [| b | z | f | s | l' | items]; cbn;
      try (right; eexists; reflexivity).
    + destruct (is_substring _ s); cbn; [right; eexists|left]; reflexivity.
    + destruct (existsb _ l'); cbn; [right; eexists|left]; reflexivity.
    + unfold hf_parse. cbn.
      destruct (dict_lookup items (lit "generated_text")); reflexivity.
  - unfold hf_parse. cbn.
    destruct (dict_lookup items (lit "generated_text")); reflexivity.
Qed.

(** C6, as the code has it: the generated text of the three shapes is
    returned trimmed when it is a string, [{"generated_text": "X"}] giving
    "X"; a generated text that is not a string makes the trimming raise; any
    other response yields the "unexpected output" notice with the first 1000
    characters of [str(data)] -- or what [str(data)] raises, when it holds
    an integer too long to print --, unless it is a non-empty sequence whose first
    element is not an object and either cannot be searched ([None], a
    boolean, a number) or is a string containing "generated_text" or a list
    holding it, which cannot be indexed by a string: then the parsing
    raises. *)
Theorem hf_parse_shapes (data : json) :
  match shape_of data with
  | SeqFirstGenerated (JStr g) | ObjGenerated (JStr g) =>
      hf_parse rt data = inr (py_strip g)
  | SeqFirstGenerated g | ObjGenerated g =>
      hf_parse rt data = inl (AttributeError g "strip")
  | BareString s => hf_parse rt data = inr (py_strip s)
  | OtherShape =>
      let unexpected : res str :=
        (s <- py_str rt data ;;
         inr (lit "(Summarization produced unexpected output) "
              ++ firstn 1000 s))%res in
      match data with
      | JList (JDict _ :: _) => hf_parse rt data = unexpected
      | JList (JStr s :: _) =>
          hf_parse rt data =
          if is_substring (lit "generated_text") s
          then inl (TypeError "getitem" (JStr s)) else unexpected
      | JList (JList l :: _) =>
          hf_parse rt data =
          if existsb (fun x => match x with
                               | JStr k => str_eqb k (lit "generated_text")
                               | _ => false
                               end) l
          then inl (TypeError "getitem" (JList l)) else unexpected
      | JList (first :: _) => hf_parse rt data = inl (TypeError "in" first)
      | _ => hf_parse rt data = unexpected
      end
  end
  /\ hf_parse rt (JDict [(lit "generated_text", JStr (lit "X"))])
     = inr (lit "X").
Proof.
  split; [|reflexivity].
  destruct data as [| b | z | f | s | [|first rest] | items];
    try reflexivity;
    [destruct first as [| b | z | f | s | l | items]; try reflexivity|];
    cbn [shape_of]; unfold hf_parse;
    cbn [py_contains_key rbind py_getitem_0 py_getitem_key];
    destruct (dict_lookup items (lit "generated_text")) as [[]|];
    reflexivity.
Qed.

End Summarizer.

(** C1, on a request that times out. *)
Lemma hf_summarize_never_raises_witness :
  hf_summarize CPython.runtime Sample.sunny HF_MODEL None 200
    (Sample.summarizing (inl (RequestError (lit "timed out")))) [] =
  (inr (lit "(Hugging Face summarization failed: timed out)" ++ nl ++ nl
        ++ Sample.sunny),
   [hf_request Sample.sunny HF_MODEL (lit "hf_x")]).
Proof.
  apply (proj1 (proj2 (hf_summarize_never_raises CPython.runtime
                         Sample.sunny HF_MODEL None 200
                         (Sample.summarizing
                            (inl (RequestError (lit "timed out")))) []))
           (lit "hf_x") (RequestError (lit "timed out"))
           [hf_request Sample.sunny HF_MODEL (lit "hf_x")]);
    [reflexivity | discriminate | reflexivity].
Defined.

(** C5, on an empty environment. *)
Lemma hf_summarize_without_token_witness :
  hf_summarize CPython.runtime Sample.sunny HF_MODEL None 200
    Sample.offline [] =
  (inr (lit "(Hugging Face token not provided; summarization skipped)"
        ++ nl ++ nl ++ Sample.sunny), []).
Proof.
  apply (proj1 (hf_summarize_without_token CPython.runtime Sample.sunny
                  HF_MODEL None 200 Sample.offline [] eq_refl eq_refl)).
Defined.

(** C5 as the specification quotes the notice: the string returned does not
    start with "(token not provided; summarization skipped)". *)
Lemma skip_notice_is_not_the_quoted_one :
  exists s,
    run (hf_summarize CPython.runtime Sample.sunny HF_MODEL None 200)
      Sample.offline = (inr s, [])
    /\ is_prefix spec_skip_prefix s = false
    /\ s <> spec_skip_prefix ++ firstn 2000 Sample.sunny.
Proof.
  eexists. split; [reflexivity|]. split; [reflexivity | discriminate].
Qed.

(** C6 as the specification words it: on the response [[5]], which has none
    of the three shapes, the parsing raises and the summarizer returns the
    failure notice, not the stringified response; on
    [{"generated_text": 5}], which has the second shape, no generated text
    is returned either. *)
Lemma hf_parse_not_only_three_shapes :
  shape_of Sample.first_not_object = OtherShape
  /\ hf_parse CPython.runtime Sample.first_not_object
     = inl (TypeError "in" (JInt 5))
  /\ run (hf_summarize CPython.runtime Sample.sunny HF_MODEL None 200)
       (Sample.summarizing (inr Sample.first_not_object))
     = (inr (lit "(Hugging Face summarization failed: argument of type 'int' is not iterable)"
             ++ nl ++ nl ++ Sample.sunny),
        [hf_request Sample.sunny HF_MODEL (lit "hf_x")])
  /\ hf_parse CPython.runtime Sample.first_not_object
     <> spec_parse CPython.runtime Sample.first_not_object
  /\ shape_of Sample.generated_number = ObjGenerated (JInt 5)
  /\ hf_parse CPython.runtime Sample.generated_number
     = inl (AttributeError (JInt 5) "strip")
  /\ hf_parse CPython.runtime Sample.generated_number
     <> spec_parse CPython.runtime Sample.generated_number.
Proof.
  repeat split; try reflexivity; discriminate.
Qed.

(** ** The formatter *)

Lemma mapM_map {A B C} (f : B -> res C) (g : A -> B) (l : list A) :
  mapM f (map g l) = mapM (fun a => f (g a)) l.
Proof.
  induction l as [|a l IH]; cbn; [reflexivity|].
  destruct (f (g a)); [reflexivity|]. now rewrite IH.
Qed.

Lemma mapM_length {A B} (f : A -> res B) (l : list A) (bs : list B) :
  mapM f l = inr bs -> List.length bs = List.length l.
Proof.
  revert bs. induction l as [|a l IH]; cbn; intros bs H.
  - now inversion H.
  - destruct (f a); [discriminate|].
    destruct (mapM f l); [discriminate|].
    inversion H; subst. cbn. f_equal. now apply IH.
Qed.

Lemma mapM_total {A B} (f : A -> res B) (l : list A) :
  (forall a, In a l -> exists b, f a = inr b) ->
  exists bs, mapM f l = inr bs.
Proof.
  induction l as [|a l IH]; cbn; intros H; [now eexists|].
  destruct (H a (or_introl eq_refl)) as [b ->].
  destruct IH as [bs ->]; [intros; apply H; now right|].
  now eexists.
Qed.

(** The rows [zip] pairs up are the rows at the indices below the length of
    the shortest argument. *)
Lemma zip5_rows (a b c d e : list json) :
  zip5 a b c d e =
  map (fun i => (nth i a JNone, nth i b JNone, nth i c JNone, nth i d JNone,
                 nth i e JNone))
      (seq 0 (Nat.min (List.length a)
                (Nat.min (List.length b)
                   (Nat.min (List.length c)
                      (Nat.min (List.length d) (List.length e)))))).
Proof.
  revert b c d e. induction a as [|x a IH]; intros b c d e; [reflexivity|].
  destruct b as [|y b]; [reflexivity|].
  destruct c as [|z c]; [reflexivity|].
  destruct d as [|u d]; [reflexivity|].
  destruct e as [|v e]; [reflexivity|].
  cbn [zip5 List.length]. rewrite <- !Nat.succ_min_distr.
  cbn [seq map nth]. f_equal. rewrite IH, <- seq_shift, map_map.
  reflexivity.
Qed.

Lemma str_of_int_inr (rt : Runtime) (z : Z) (s : str) :
  str_of_int rt z = inr s -> s = str_of_Z z.
Proof.
  unfold str_of_int. destruct (_ && _); [discriminate|]. now intros [= <-].
Qed.

(** An integer is printed when no limit is set or it is within it. *)
Lemma str_of_int_within (rt : Runtime) (z : Z) :
  int_max_str_digits rt <= 0 \/ int_digits z <= int_max_str_digits rt ->
  str_of_int rt z = inr (str_of_Z z).
Proof.
  intros H. unfold str_of_int.
  destruct (Z.ltb_spec 0 (int_max_str_digits rt));
    destruct (Z.ltb_spec (int_max_str_digits rt) (int_digits z));
    cbn [andb]; try reflexivity; lia.
Qed.

Lemma str_of_int_beyond (rt : Runtime) (z : Z) :
  0 < int_max_str_digits rt < int_digits z ->
  str_of_int rt z = inl (ValueError "str" (JInt z)).
Proof.
  intros H. unfold str_of_int.
  destruct (Z.ltb_spec 0 (int_max_str_digits rt));
    destruct (Z.ltb_spec (int_max_str_digits rt) (int_digits z));
    cbn [andb]; try reflexivity; lia.
Qed.

Lemma mapM_nth {A B} (f : A -> res B) (l : list A) (bs : list B)
    (a : A) (b : B) :
  mapM f l = inr bs <->
  List.length bs = List.length l
  /\ forall i, (i < List.length l)%nat -> f (nth i l a) = inr (nth i bs b).
Proof.
  revert bs. induction l as [|x l IH]; intros bs; cbn.
  - split.
    + intros [= <-]. split; [reflexivity|]. intros i Hi. lia.
    + intros [H _]. destruct bs; [reflexivity|discriminate].
  - split.
    + destruct (f x) as [e|y] eqn:Fx; [discriminate|].
      destruct (mapM f l) as [e|ys] eqn:M; [discriminate|].
      intros [= <-]. destruct (proj1 (IH ys) eq_refl) as [L N].
      split; [cbn; now f_equal|].
      intros [|i] Hi; [exact Fx|]. apply N. lia.
    + intros [L N]. destruct bs as [|y ys]; [discriminate|].
      rewrite (N 0%nat ltac:(lia)). cbn.
      rewrite (proj2 (IH ys)); [reflexivity|].
      split; [now injection L|].
      intros i Hi. apply (N (S i)). lia.
Qed.

Lemma join_cons (sep x : str) (rows : list str) :
  join sep (x :: rows) = x ++ List.concat (map (fun l => sep ++ l) rows).
Proof.
  revert x. induction rows as [|r rows IH]; intros x.
  - cbn. now rewrite app_nil_r.
  - change (join sep (x :: r :: rows)) with (x ++ sep ++ join sep (r :: rows)).
    rewrite IH. cbn [map List.concat]. now rewrite <- !app_assoc.
Qed.

Section Formatter.

Variable rt : Runtime.

(** The loop of [format_forecast_text] as a loop over indices. *)
Lemma forecast_lines_rows
    (place_name : str) (forecast_json daily : json)
    (dates tmax tmin precip weathercodes : json)
    (ds his los ps wcs : list json) :
  py_get forecast_json "daily" (JDict []) = inr daily ->
  py_get daily "time" (JList []) = inr dates ->
  py_get daily "temperature_2m_max" (JList []) = inr tmax ->
  py_get daily "temperature_2m_min" (JList []) = inr tmin ->
  py_get daily "precipitation_sum" (JList []) = inr precip ->
  py_get daily "weathercode" (JList []) = inr weathercodes ->
  py_iter dates = inr ds ->
  py_iter tmax = inr his ->
  py_iter tmin = inr los ->
  py_iter precip = inr ps ->
  py_iter weathercodes = inr wcs ->
  forecast_lines rt place_name forecast_json =
    (rows <- mapM (fun i => day_line rt
                              (nth i ds JNone, nth i his JNone,
                               nth i los JNone, nth i ps JNone,
                               nth i wcs JNone))
               (seq 0 (Nat.min (List.length ds)
                         (Nat.min (List.length his)
                            (Nat.min (List.length los)
                               (Nat.min (List.length ps)
                                  (List.length wcs)))))) ;;
     inr (forecast_header place_name :: rows))%res.
Proof.
  intros Hd H1 H2 H3 H4 H5 I1 I2 I3 I4 I5. unfold forecast_lines.
  rewrite Hd; cbn [rbind]. rewrite H1; cbn [rbind].
  rewrite H2; cbn [rbind]. rewrite H3; cbn [rbind].
  rewrite H4; cbn [rbind]. rewrite H5; cbn [rbind].
  rewrite I1; cbn [rbind]. rewrite I2; cbn [rbind].
  rewrite I3; cbn [rbind]. rewrite I4; cbn [rbind].
  rewrite I5; cbn [rbind].
  now rewrite zip5_rows, mapM_map.
Qed.

(** The body of the loop returns a line exactly when every part of the day
    can be computed, and the line is then the parts put together. *)
Lemma day_line_rendered (row : json * json * json * json * json)
    (line : str) :
  day_line rt row = inr line <-> rendered_day rt row line.
Proof.
  destruct row as [[[[d hi] lo] p] wc]. unfold day_line, rendered_day.
  split.
  - destruct (day_date rt d) as [e|date]; cbn [rbind]; [discriminate|].
    destruct (precip_note rt p) as [e|note]; cbn [rbind]; [discriminate|].
    destruct (py_int rt lo) as [e|low]; cbn [rbind]; [discriminate|].
    destruct (str_of_int rt low) as [e|lo_str] eqn:Sl; cbn [rbind];
      [discriminate|].
    destruct (py_int rt hi) as [e|high]; cbn [rbind]; [discriminate|].
    destruct (str_of_int rt high) as [e|hi_str] eqn:Sh; cbn [rbind];
      [discriminate|].
    intros [= <-].
    pose proof (str_of_int_inr _ _ _ Sl). pose proof (str_of_int_inr _ _ _ Sh).
    subst. exists date, note, low, high. repeat split; assumption || reflexivity.
  - intros [date [note [low [high [-> [-> [-> [Sl [-> [Sh ->]]]]]]]]]].
    cbn [rbind]. rewrite Sl. cbn [rbind]. rewrite Sh. reflexivity.
Qed.

(** C4: when the daily series have unequal lengths, [format_forecast_text]
    renders the indices below the length of the shortest one and no other.
    The text it returns is the header line "Weather forecast for <place>:",
    an empty line, and one line per such index, in order, each being that
    day as the specification words it; and it returns a text exactly when
    each of these days can be rendered. Five dates and three maxima give
    three lines. *)
Theorem format_forecast_text_shortest
    (place_name : str) (forecast_json daily : json)
    (dates tmax tmin precip weathercodes : json)
    (ds his los ps wcs : list json) :
  py_get forecast_json "daily" (JDict []) = inr daily ->
  py_get daily "time" (JList []) = inr dates ->
  py_get daily "temperature_2m_max" (JList []) = inr tmax ->
  py_get daily "temperature_2m_min" (JList []) = inr tmin ->
  py_get daily "precipitation_sum" (JList []) = inr precip ->
  py_get daily "weathercode" (JList []) = inr weathercodes ->
  py_iter dates = inr ds ->
  py_iter tmax = inr his ->
  py_iter tmin = inr los ->
  py_iter precip = inr ps ->
  py_iter weathercodes = inr wcs ->
  let n := Nat.min (List.length ds)
             (Nat.min (List.length his)
                (Nat.min (List.length los)
                   (Nat.min (List.length ps) (List.length wcs)))) in
  let row i := (nth i ds JNone, nth i his JNone, nth i los JNone,
                nth i ps JNone, nth i wcs JNone) in
  forall text,
    format_forecast_text rt place_name forecast_json = inr text <->
    exists day_lines,
      List.length day_lines = n
      /\ (forall i, (i < n)%nat ->
            rendered_day rt (row i) (nth i day_lines []))
      /\ text = lit "Weather forecast for " ++ place_name ++ lit ":" ++ nl
                ++ List.concat (map (fun l => nl ++ l) day_lines).
Proof.
  intros Hd H1 H2 H3 H4 H5 I1 I2 I3 I4 I5 n row text.
  unfold format_forecast_text.
  rewrite (forecast_lines_rows place_name forecast_json daily
             dates tmax tmin precip weathercodes ds his los ps wcs
             Hd H1 H2 H3 H4 H5 I1 I2 I3 I4 I5).
  fold n. fold row.
  change (fun i : nat =>
            day_line rt (nth i ds JNone, nth i his JNone, nth i los JNone,
                         nth i ps JNone, nth i wcs JNone))
    with (fun i => day_line rt (row i)).
  split.
  - destruct (mapM _ (seq 0 n)) as [e|rows] eqn:M; cbn [rbind];
      [discriminate|].
    intros E.
    assert (E' : text = join nl (forecast_header place_name :: rows))
      by congruence.
    clear E.
    apply (mapM_nth _ _ _ 0%nat []) in M as [L N].
    rewrite length_seq in L, N.
    exists rows. split; [exact L|]. split.
    + intros i Hi. apply day_line_rendered.
      specialize (N i Hi). now rewrite seq_nth in N.
    + rewrite E', join_cons. unfold forecast_header.
      now rewrite <- !app_assoc.
  - intros [rows [L [N ->]]].
    assert (M : mapM (fun i => day_line rt (row i)) (seq 0 n) = inr rows).
    { apply (mapM_nth _ _ _ 0%nat []). rewrite length_seq.
      split; [exact L|]. intros i Hi. rewrite seq_nth by exact Hi.
      apply day_line_rendered. now apply N. }
    rewrite M. cbn [rbind]. rewrite join_cons. unfold forecast_header.
    now rewrite <- !app_assoc.
Qed.

End Formatter.

(** C4, on five dates and three maxima: the header, an empty line and
    three lines. *)
Lemma format_forecast_text_shortest_witness :
  format_forecast_text CPython.runtime (lit "Lahore, Pakistan")
    Sample.uneven =
  inr (lit "Weather forecast for Lahore, Pakistan:" ++ nl ++ nl
       ++ lit "Mon 01 Jan: Clear sky. Temp 0" ++ degree_sign ++ lit "C"
       ++ en_dash ++ lit "21" ++ degree_sign
       ++ lit "C, no significant rain." ++ nl
       ++ lit "Tue 02 Jan: Mainly clear to partly cloudy. Temp 8"
       ++ degree_sign ++ lit "C" ++ en_dash ++ lit "20" ++ degree_sign
       ++ lit "C, no significant rain." ++ nl
       ++ lit "Wed 03 Jan: Rain. Temp 7" ++ degree_sign ++ lit "C"
       ++ en_dash ++ lit "19" ++ degree_sign
       ++ lit "C, 3 mm precipitation expected.").
Proof.
  apply (proj2 (format_forecast_text_shortest CPython.runtime
                  (lit "Lahore, Pakistan") Sample.uneven
                  _ _ _ _ _ _ _ _ _ _ _
                  eq_refl eq_refl eq_refl eq_refl eq_refl eq_refl
                  eq_refl eq_refl eq_refl eq_refl eq_refl _)).
  exists
    [lit "Mon 01 Jan: Clear sky. Temp 0" ++ degree_sign ++ lit "C"
       ++ en_dash ++ lit "21" ++ degree_sign
       ++ lit "C, no significant rain.";
     lit "Tue 02 Jan: Mainly clear to partly cloudy. Temp 8"
       ++ degree_sign ++ lit "C" ++ en_dash ++ lit "20" ++ degree_sign
       ++ lit "C, no significant rain.";
     lit "Wed 03 Jan: Rain. Temp 7" ++ degree_sign ++ lit "C"
       ++ en_dash ++ lit "19" ++ degree_sign
       ++ lit "C, 3 mm precipitation expected."].
  split; [reflexivity|]. split; [|reflexivity].
  intros i Hi.
  destruct i as [|[|[|i]]];
    [ exists (lit "Mon 01 Jan"), (lit "no significant rain"), 0, 21
    | exists (lit "Tue 02 Jan"), (lit "no significant rain"), 8, 20
    | exists (lit "Wed 03 Jan"), (lit "3 mm precipitation expected"), 7, 19
    | exfalso; cbn in Hi; lia ];
    repeat split; reflexivity.
Defined.

(** ** Temperatures *)



Section Temperatures.

Variable rt : Runtime.



End Temperatures.


(** ** The orchestrator *)

Section Orchestrator.

Variable rt : Runtime.

(** [get_forecast_for_place], step by step. *)
Lemma get_forecast_for_place_steps place days use_hf w :
  run (get_forecast_for_place rt place days use_hf) w =
  match py_strip place with
  | [] => (inr (guidance, JDict []), [])
  | c :: t =>
    match geocode_place (c :: t) w [] with
    | (inl e, lg1) =>
        (inr (lit "Error during geocoding: " ++ str_of_exn rt e, JDict []),
         lg1)
    | (inr geo, lg1) =>
      if negb (py_truthy geo) then
        (inr (lit "Location not found: " ++ c :: t, JDict []), lg1)
      else
        match geo with
        | JDict items =>
          match py_str rt (dict_get items (lit "name") JNone) with
          | inl e => (inl e, lg1)
          | inr n_str =>
          match py_str rt (dict_get items (lit "country") JNone) with
          | inl e => (inl e, lg1)
          | inr c_str =>
          let name := n_str ++ lit ", " ++ c_str in
          match fetch_open_meteo rt (dict_get items (lit "latitude") JNone)
                  (dict_get items (lit "longitude") JNone) days w lg1 with
          | (inl e, lg2) =>
              (inr (lit "Error fetching forecast for " ++ name ++ lit ": "
                    ++ str_of_exn rt e, JDict []), lg2)
          | (inr forecast, lg2) =>
            match format_forecast_text rt name forecast with
            | inl e => (inl e, lg2)
            | inr raw_text_summary =>
              let hf_token := environ w "HF_API_TOKEN" in
              if use_hf && opt_truthy hf_token then
                match hf_summarize rt raw_text_summary HF_MODEL hf_token 200
                        w lg2 with
                | (inr summary, lg3) => (inr (summary, forecast), lg3)
                | (inl e, lg3) => (inl e, lg3)
                end
              else if use_hf && negb (opt_truthy hf_token) then
                (inr (token_not_set raw_text_summary, forecast), lg2)
              else (inr (raw_text_summary, forecast), lg2)
            end
          end
          end
          end
        | _ => (inl (AttributeError geo "get"), lg1)
        end
    end
  end.
Proof.
  unfold run, get_forecast_for_place. cbv zeta.
  destruct (py_strip place) as [|c t]; [reflexivity|].
  unfold bind at 1. unfold try at 1.
  destruct (geocode_place (c :: t) w []) as [[e|geo] lg1]; [reflexivity|].
  cbv beta iota.
  destruct (negb (py_truthy geo)); [reflexivity|].
  destruct geo as [| b | z | f | s | l | items]; try reflexivity.
  unfold bind, lift, py_get, try. cbv beta iota.
  destruct (py_str rt (dict_get items (lit "name") JNone)) as [e|n_str];
    [reflexivity|].
  cbv beta iota.
  destruct (py_str rt (dict_get items (lit "country") JNone)) as [e|c_str];
    [reflexivity|].
  cbv beta iota zeta.
  destruct (fetch_open_meteo rt _ _ days w lg1) as [[e|forecast] lg2];
    [reflexivity|].
  cbv beta iota.
  destruct (format_forecast_text rt _ forecast) as [e|raw]; [reflexivity|].
  unfold getenv. cbv beta iota.
  destruct (use_hf && opt_truthy (environ w "HF_API_TOKEN")).
  - destruct (hf_summarize rt raw HF_MODEL _ 200 w lg2) as [[e|s] lg3];
      reflexivity.
  - destruct (use_hf && negb (opt_truthy (environ w "HF_API_TOKEN")));
      reflexivity.
Qed.

(** [geocode_place] issues exactly one request, a GET. *)
Lemma geocode_place_log place w lg :
  exists params,
    snd (geocode_place place w lg) = lg ++ [GET GEOCODE_URL params 10].
Proof.
  eexists. unfold geocode_place, bind, http, lift, ret. cbv zeta.
  destruct (respond w lg _) as [e|data]; [reflexivity|].
  cbv beta iota.
  destruct (py_get data "results" JNone) as [e|results]; [reflexivity|].
  cbv beta iota. destruct (py_truthy results); [|reflexivity].
  destruct (py_getitem_key data "results"); reflexivity.
Qed.

(** A forecast that [fetch_open_meteo] returns is the body of the one
    request it issued, a GET. *)
Lemma fetch_open_meteo_log lat lon days w lg forecast lg' :
  fetch_open_meteo rt lat lon days w lg = (inr forecast, lg') ->
  exists params,
    lg' = lg ++ [GET FORECAST_URL params 15]
    /\ respond w lg (GET FORECAST_URL params 15) = inr forecast.
Proof.
  unfold fetch_open_meteo, bind, get_today, lift, http.
  destruct (timedelta_days (days - 1)) as [e|delta]; [discriminate|].
  cbv beta iota.
  destruct (date_add (today w) delta) as [e|end_date]; [discriminate|].
  cbv beta iota zeta. intros [= H <-]. eexists. split; [reflexivity|exact H].
Qed.

(** C2: a place that is empty or all whitespace gets the guidance message
    and an empty structure, whatever the world, and no request is issued. *)
Theorem blank_place_guidance place days use_hf w :
  forallb py_isspace place = true ->
  run (get_forecast_for_place rt place days use_hf) w =
  (inr (lit "Please enter a location (e.g., 'Rahim Yar Khan, Pakistan').",
        JDict []), []).
Proof.
  intros H. rewrite get_forecast_for_place_steps.
  now rewrite (py_strip_all_space place H).
Qed.

(** What a run that got through geocoding, fetching and formatting
    returns. *)
Lemma successful_run
    place days use_hf w items lg1 forecast lg2 raw name country :
  py_strip place <> [] ->
  geocode_place (py_strip place) w [] = (inr (JDict items), lg1) ->
  items <> [] ->
  fetch_open_meteo rt (dict_get items (lit "latitude") JNone)
    (dict_get items (lit "longitude") JNone) days w lg1
    = (inr forecast, lg2) ->
  py_str rt (dict_get items (lit "name") JNone) = inr name ->
  py_str rt (dict_get items (lit "country") JNone) = inr country ->
  format_forecast_text rt (name ++ lit ", " ++ country) forecast = inr raw ->
  run (get_forecast_for_place rt place days use_hf) w =
  if use_hf && opt_truthy (environ w "HF_API_TOKEN") then
    match hf_summarize rt raw HF_MODEL (environ w "HF_API_TOKEN") 200
            w lg2 with
    | (inr summary, lg3) => (inr (summary, forecast), lg3)
    | (inl e, lg3) => (inl e, lg3)
    end
  else if use_hf && negb (opt_truthy (environ w "HF_API_TOKEN")) then
    (inr (token_not_set raw, forecast), lg2)
  else (inr (raw, forecast), lg2).
Proof.
  intros Hplace Hgeo Hitems Hfetch Hname Hcountry Hfmt.
  rewrite get_forecast_for_place_steps.
  destruct (py_strip place) as [|c t]; [congruence|].
  rewrite Hgeo.
  destruct items as [|kv items]; [congruence|].
  cbn [py_truthy negb]. rewrite Hname, Hcountry. cbv zeta.
  rewrite Hfetch, Hfmt. reflexivity.
Qed.

(** The structure a run returns is empty or the body of a forecast
    request. *)
Lemma returned_structure place days use_hf w text structure lg :
  run (get_forecast_for_place rt place days use_hf) w
  = (inr (text, structure), lg) ->
  structure = JDict []
  \/ exists lg0 params,
       respond w lg0 (GET FORECAST_URL params 15) = inr structure.
Proof.
  rewrite get_forecast_for_place_steps.
  destruct (py_strip place) as [|c t]; [intros [= _ <- _]; now left|].
  destruct (geocode_place (c :: t) w []) as [[e|geo] lg1];
    [intros [= _ <- _]; now left|].
  destruct (negb (py_truthy geo)); [intros [= _ <- _]; now left|].
  destruct geo as [| b | z | f | s | l | items]; try discriminate.
  destruct (py_str rt (dict_get items (lit "name") JNone)) as [e|n_str];
    [discriminate|].
  destruct (py_str rt (dict_get items (lit "country") JNone)) as [e|c_str];
    [discriminate|].
  cbv zeta.
  destruct (fetch_open_meteo rt _ _ days w lg1) as [[e|forecast] lg2] eqn:F;
    [intros [= _ <- _]; now left|].
  apply fetch_open_meteo_log in F as [params [_ F]].
  intros H. right. exists lg1, params.
  destruct (format_forecast_text rt _ forecast) as [e|raw]; [discriminate|].
  destruct (use_hf && opt_truthy (environ w "HF_API_TOKEN")).
  - destruct (hf_summarize rt raw HF_MODEL _ 200 w lg2) as [[e|sm] lg3];
      [discriminate|]. now inversion H; subst.
  - destruct (use_hf && negb (opt_truthy (environ w "HF_API_TOKEN")));
      now inversion H; subst.
Qed.

(** C8: a run that got through geocoding, fetching and formatting returns,
    next to its text, the very structure the forecast request came back
    with, whether or not a summary was asked for and whatever the
    summarization endpoint did; and the structure any run returns is the
    body of a forecast request or the empty one of the early exits. *)
Theorem orchestrator_returns_raw_forecast
    place days use_hf w items lg1 forecast lg2 raw name country :
  py_strip place <> [] ->
  geocode_place (py_strip place) w [] = (inr (JDict items), lg1) ->
  items <> [] ->
  fetch_open_meteo rt (dict_get items (lit "latitude") JNone)
    (dict_get items (lit "longitude") JNone) days w lg1
    = (inr forecast, lg2) ->
  py_str rt (dict_get items (lit "name") JNone) = inr name ->
  py_str rt (dict_get items (lit "country") JNone) = inr country ->
  format_forecast_text rt (name ++ lit ", " ++ country) forecast = inr raw ->
  (exists summary lg3,
     run (get_forecast_for_place rt place days use_hf) w
     = (inr (summary, forecast), lg3))
  /\ (exists params,
        respond w lg1 (GET FORECAST_URL params 15) = inr forecast)
  /\ (forall place' days' use_hf' text structure lg,
        run (get_forecast_for_place rt place' days' use_hf') w
        = (inr (text, structure), lg) ->
        structure = JDict []
        \/ exists lg0 params,
             respond w lg0 (GET FORECAST_URL params 15) = inr structure).
Proof.
  intros Hplace Hgeo Hitems Hfetch Hname Hcountry Hfmt.
  pose proof (successful_run place days use_hf w items lg1 forecast lg2 raw
                name country Hplace Hgeo Hitems Hfetch Hname Hcountry Hfmt)
    as E.
  assert (R : exists summary lg3,
             run (get_forecast_for_place rt place days use_hf) w
             = (inr (summary, forecast), lg3)).
  { rewrite E.
    destruct (use_hf && opt_truthy (environ w "HF_API_TOKEN")).
    - rewrite hf_summarize_token.
      destruct (if opt_truthy _ then _ else _) as [[|c t]|]; eauto.
      destruct (hf_attempt rt raw HF_MODEL (c :: t) w lg2) as [[e|s] lg3];
        eauto.
    - destruct (use_hf && negb (opt_truthy (environ w "HF_API_TOKEN")));
        eauto. }
  split; [exact R|]. split.
  - destruct (fetch_open_meteo_log _ _ _ _ _ _ _ Hfetch) as [params [_ H]].
    now exists params.
  - intros place' days' use_hf' text structure lg.
    apply returned_structure.
Qed.

(** C10: when no summary is asked for, a run that got through geocoding,
    fetching and formatting returns the formatter's text itself, and its two
    requests are the two GETs: nothing is posted to the summarization
    endpoint, credential or not. *)
Theorem no_summary_returns_formatter_text
    place days w items lg1 forecast lg2 raw name country :
  py_strip place <> [] ->
  geocode_place (py_strip place) w [] = (inr (JDict items), lg1) ->
  items <> [] ->
  fetch_open_meteo rt (dict_get items (lit "latitude") JNone)
    (dict_get items (lit "longitude") JNone) days w lg1
    = (inr forecast, lg2) ->
  py_str rt (dict_get items (lit "name") JNone) = inr name ->
  py_str rt (dict_get items (lit "country") JNone) = inr country ->
  format_forecast_text rt (name ++ lit ", " ++ country) forecast = inr raw ->
  run (get_forecast_for_place rt place days false) w
  = (inr (raw, forecast), lg2)
  /\ exists geocode_params forecast_params,
       lg2 = [GET GEOCODE_URL geocode_params 10;
              GET FORECAST_URL forecast_params 15].
Proof.
  intros Hplace Hgeo Hitems Hfetch Hname Hcountry Hfmt. split.
  - now rewrite (successful_run place days false w items lg1 forecast lg2 raw
                   name country Hplace Hgeo Hitems Hfetch Hname Hcountry
                   Hfmt).
  - destruct (geocode_place_log (py_strip place) w []) as [gp Hgp].
    rewrite Hgeo in Hgp. cbn in Hgp. subst lg1.
    destruct (fetch_open_meteo_log _ _ _ _ _ _ _ Hfetch) as [fp [-> _]].
    now exists gp, fp.
Qed.






End Orchestrator.

(** C2, on three spaces and a network that is down. *)
Lemma blank_place_guidance_witness :
  run (get_forecast_for_place CPython.runtime (lit "   ") 7 true)
    Sample.offline =
  (inr (lit "Please enter a location (e.g., 'Rahim Yar Khan, Pakistan').",
        JDict []), []).
Proof.
  apply (blank_place_guidance CPython.runtime (lit "   ") 7 true
           Sample.offline eq_refl).
Defined.

(** C8, on a run with a summary. *)
Lemma orchestrator_returns_raw_forecast_witness :
  exists summary lg,
    run (get_forecast_for_place CPython.runtime (lit "Lahore, Pakistan") 3
           true) (Sample.answering (lit " Mild and dry. "))
    = (inr (summary, Sample.uneven), lg).
Proof.
  refine (proj1 (orchestrator_returns_raw_forecast CPython.runtime
                   (lit "Lahore, Pakistan") 3 true
                   (Sample.answering (lit " Mild and dry. "))
                   Sample.lahore_items _ Sample.uneven _ _
                   (lit "Lahore") (lit "Pakistan") _ _ _ _ _ _ _));
    [discriminate | lazy; reflexivity | discriminate
    | lazy; reflexivity | reflexivity | reflexivity | lazy; reflexivity].
Defined.

(** C10, on a run without a summary, a credential being set. *)
Lemma no_summary_returns_formatter_text_witness :
  exists raw lg,
    format_forecast_text CPython.runtime (lit "Lahore, Pakistan")
      Sample.uneven = inr raw
    /\ environ (Sample.answering (lit " Mild and dry. ")) "HF_API_TOKEN"
       = Some (lit "hf_x")
    /\ run (get_forecast_for_place CPython.runtime (lit "Lahore, Pakistan") 3
              false) (Sample.answering (lit " Mild and dry. "))
       = (inr (raw, Sample.uneven), lg).
Proof.
  eexists _, _. split; [lazy; reflexivity|]. split; [reflexivity|].
  refine (proj1 (no_summary_returns_formatter_text CPython.runtime
                   (lit "Lahore, Pakistan") 3
                   (Sample.answering (lit " Mild and dry. "))
                   Sample.lahore_items _ Sample.uneven _ _
                   (lit "Lahore") (lit "Pakistan") _ _ _ _ _ _ _));
    [discriminate | lazy; reflexivity | discriminate
    | lazy; reflexivity | reflexivity | reflexivity | lazy; reflexivity].
Defined.



(** * Further properties of the program *)

(** ** [geocode_place] *)

(** [geocode_place], step by step. *)
Lemma geocode_place_steps place w lg :
  geocode_place place w lg =
  (match respond w lg (GET GEOCODE_URL (geocode_params place) 10) with
   | inl e => inl e
   | inr data =>
       match py_get data "results" JNone with
       | inl e => inl e
       | inr results =>
           if py_truthy results
           then rbind (py_getitem_key data "results") py_getitem_0
           else inr JNone
       end
   end,
   lg ++ [GET GEOCODE_URL (geocode_params place) 10]).
Proof.
  unfold geocode_place, bind, http, lift, ret, geocode_params. cbv zeta.
  destruct (respond w lg _) as [e|data]; [reflexivity|].
  cbv beta iota.
  destruct (py_get data "results" JNone) as [e|results]; [reflexivity|].
  cbv beta iota. destruct (py_truthy results); [|reflexivity].
  destruct (py_getitem_key data "results"); reflexivity.
Qed.

(** X1: whatever comes back, [geocode_place] issues one request and one
    only: a GET of the geocoding URL asking for the place as given, one
    result, in English, as JSON, with a time-out of 10 seconds. *)
Theorem geocode_place_one_request place w lg :
  snd (geocode_place place w lg) =
  lg ++ [GET GEOCODE_URL
           [("name"%string, JStr place); ("count"%string, JInt 1);
            ("language"%string, JStr (lit "en"));
            ("format"%string, JStr (lit "json"))] 10].
Proof. now rewrite geocode_place_steps. Qed.

(** X2: when the body is an object whose "results" is missing, [None],
    an empty list, or anything else false, [geocode_place] returns [None]
    and raises nothing. *)
Theorem geocode_place_no_results place w lg items :
  respond w lg (GET GEOCODE_URL (geocode_params place) 10)
    = inr (JDict items) ->
  dict_lookup items (lit "results") = None
  \/ (exists results,
        dict_lookup items (lit "results") = Some results
        /\ py_truthy results = false) ->
  fst (geocode_place place w lg) = inr JNone.
Proof.
  intros R H. rewrite geocode_place_steps, R. cbn [fst py_get].
  unfold dict_get.
  destruct H as [-> | [results [-> H]]]; [reflexivity|].
  now rewrite H.
Qed.

(** X3: when the body is an object whose "results" is a non-empty list,
    [geocode_place] returns the first element of that list, whatever it
    is. *)
Theorem geocode_place_first_result place w lg items first rest :
  respond w lg (GET GEOCODE_URL (geocode_params place) 10)
    = inr (JDict items) ->
  dict_lookup items (lit "results") = Some (JList (first :: rest)) ->
  fst (geocode_place place w lg) = inr first.
Proof.
  intros R H. rewrite geocode_place_steps, R. cbn [fst py_get].
  unfold dict_get, py_getitem_key. now rewrite H.
Qed.

(** X4: [geocode_place] catches nothing. What the request raises comes out
    unchanged; a body that is not an object raises [AttributeError] on
    [data.get]; and a "results" that is true but neither a list nor a string
    raises on [[0]]: [KeyError] for a non-empty object, [TypeError] for a
    number or [True]. *)
Theorem geocode_place_raises place w lg :
  (forall e,
     respond w lg (GET GEOCODE_URL (geocode_params place) 10) = inl e ->
     fst (geocode_place place w lg) = inl e)
  /\ (forall data,
        respond w lg (GET GEOCODE_URL (geocode_params place) 10) = inr data ->
        (forall items, data <> JDict items) ->
        fst (geocode_place place w lg) = inl (AttributeError data "get"))
  /\ (forall items results,
        respond w lg (GET GEOCODE_URL (geocode_params place) 10)
          = inr (JDict items) ->
        dict_lookup items (lit "results") = Some results ->
        py_truthy results = true ->
        match results with
        | JList _ | JStr _ => True
        | JDict _ =>
            fst (geocode_place place w lg)
            = inl (KeyError results (JInt 0))
        | _ =>
            fst (geocode_place place w lg)
            = inl (TypeError "getitem" results)
        end).
Proof.
  split; [|split].
  - intros e R. now rewrite geocode_place_steps, R.
  - intros data R H. rewrite geocode_place_steps, R. cbn [fst].
    destruct data; try reflexivity. now destruct (H items).
  - intros items results R H T. rewrite geocode_place_steps, R.
    cbn [fst py_get]. unfold dict_get, py_getitem_key. rewrite H, T.
    destruct results as [| b | z | f | s | l | its]; try exact I;
      try reflexivity.
Qed.

(** X2, on a body without "results". *)
Lemma geocode_place_no_results_witness :
  fst (geocode_place (lit "Atlantis")
         (Sample.service None
            (inr (JDict [(lit "generationtime_ms", JInt 1)]))
            (inr JNone) (inr JNone)) [])
  = inr JNone.
Proof.
  apply (geocode_place_no_results (lit "Atlantis")
           (Sample.service None
              (inr (JDict [(lit "generationtime_ms", JInt 1)]))
              (inr JNone) (inr JNone)) []
           [(lit "generationtime_ms", JInt 1)] eq_refl (or_introl eq_refl)).
Defined.

(** X3, on the body of the sample service. *)
Lemma geocode_place_first_result_witness :
  fst (geocode_place (lit "Lahore") (Sample.answering (lit "ok")) [])
  = inr (JDict Sample.lahore_items).
Proof.
  apply (geocode_place_first_result (lit "Lahore")
           (Sample.answering (lit "ok")) []
           [(lit "results", JList [JDict Sample.lahore_items])]
           (JDict Sample.lahore_items) [] eq_refl eq_refl).
Defined.

(** X4, on a network that is down. *)
Lemma geocode_place_raises_witness :
  fst (geocode_place (lit "Lahore") Sample.offline [])
  = inl (RequestError (lit "connection refused")).
Proof.
  apply (proj1 (geocode_place_raises (lit "Lahore") Sample.offline [])
           (RequestError (lit "connection refused")) eq_refl).
Defined.

(** ** [fetch_open_meteo] *)

Section Fetch.

Variable rt : Runtime.

(** X5: when [days - 1] is a legal [timedelta] and the last day a legal
    date, [fetch_open_meteo] issues one GET of the forecast URL, with a
    time-out of 15 seconds, for the window from today to today plus
    [days - 1] days, both ends included, and returns or raises what that
    request does. *)
Theorem fetch_open_meteo_window lat lon days w lg :
  Z.abs (days - 1) <= 999999999 ->
  1 <= today w + (days - 1) <= 3652059 ->
  fetch_open_meteo rt lat lon days w lg =
  (respond w lg
     (GET FORECAST_URL
        (forecast_params rt lat lon (today w) (today w + (days - 1))) 15),
   lg ++ [GET FORECAST_URL
            (forecast_params rt lat lon (today w) (today w + (days - 1)))
            15]).
Proof.
  intros Hd Hr.
  unfold fetch_open_meteo, bind, get_today, lift, http, timedelta_days,
    date_add, forecast_params.
  destruct (Z.leb_spec (Z.abs (days - 1)) 999999999) as [_|]; [|lia].
  cbv beta iota.
  destruct (Z.leb_spec 1 (today w + (days - 1))) as [_|]; [|lia].
  destruct (Z.leb_spec (today w + (days - 1)) 3652059) as [_|]; [|lia].
  cbn [andb]. cbv beta iota zeta.
  destruct (respond w lg _); reflexivity.
Qed.

(** X6: when [days - 1] is too large for a [timedelta], or the last day
    falls outside the calendar, [fetch_open_meteo] raises [OverflowError]
    and issues no request. *)
Theorem fetch_open_meteo_overflow lat lon days w lg :
  999999999 < Z.abs (days - 1)
  \/ today w + (days - 1) < 1
  \/ 3652059 < today w + (days - 1) ->
  exists op,
    fetch_open_meteo rt lat lon days w lg = (inl (OverflowError op), lg).
Proof.
  intros H.
  unfold fetch_open_meteo, bind, get_today, lift, http, timedelta_days,
    date_add.
  destruct (Z.leb_spec (Z.abs (days - 1)) 999999999) as [Hd|Hd];
    [|eexists; reflexivity].
  cbv beta iota.
  destruct (Z.leb_spec 1 (today w + (days - 1))) as [H1|H1];
    [|eexists; reflexivity].
  destruct (Z.leb_spec (today w + (days - 1)) 3652059) as [H2|H2];
    [lia|eexists; reflexivity].
Qed.

End Fetch.

(** X5, on three days from 1 January 2024. *)
Lemma fetch_open_meteo_window_witness :
  fetch_open_meteo CPython.runtime (JInt 31) (JInt 74) 3
    (Sample.answering (lit "ok")) [] =
  (inr Sample.uneven,
   [GET FORECAST_URL
      (forecast_params CPython.runtime (JInt 31) (JInt 74) 738886 738888)
      15]).
Proof.
  refine (fetch_open_meteo_window CPython.runtime (JInt 31) (JInt 74) 3
            (Sample.answering (lit "ok")) [] _ _);
    cbn; lia.
Defined.

(** X6, on a window that would end before the year 1. *)
Lemma fetch_open_meteo_overflow_witness :
  exists op,
    fetch_open_meteo CPython.runtime (JInt 31) (JInt 74) (-738886)
      (Sample.answering (lit "ok")) []
    = (inl (OverflowError op), []).
Proof.
  refine (fetch_open_meteo_overflow CPython.runtime (JInt 31) (JInt 74)
            (-738886) (Sample.answering (lit "ok")) [] _).
  right. left. cbn. lia.
Defined.

(** ** The formatter, further *)

Lemma expected_is_not_rain (x : str) :
  x ++ lit " mm precipitation expected" <> lit "no significant rain".
Proof.
  intros H. apply (f_equal (@rev N)) in H. rewrite rev_app_distr in H.
  unfold lit in H. cbn in H. discriminate H.
Qed.

Lemma finite_float_not_zero s m e :
  float_eq_Z (S754_finite s m e) 0 = false.
Proof.
  unfold float_eq_Z. destruct (Z.leb_spec 0 e) as [He|He].
  - apply Z.eqb_neq. pose proof (Z.pow_pos_nonneg 2 e ltac:(lia) He).
    destruct s; nia.
  - now destruct s.
Qed.

(** X7: the precipitation note is "no significant rain" exactly for [None]
    and for the values equal to zero -- 0, 0.0, -0.0 and [False]; for any
    other value it is [str] of the value followed by
    " mm precipitation expected", and it raises what [str] raises: an
    integer other than zero is printed in decimal, unless the interpreter
    limits the digits of a printed integer and it has more, which raises
    [ValueError]. *)
Theorem precip_note_cases (rt : Runtime) (p : json) :
  (precip_note rt p = inr (lit "no significant rain") <->
   p = JNone \/ p = JInt 0 \/ p = JBool false
   \/ exists s, p = JFloat (S754_zero s))
  /\ (precip_note rt p = inr (lit "no significant rain")
      \/ precip_note rt p =
         (s <- py_str rt p ;;
          inr (s ++ lit " mm precipitation expected"))%res)
  /\ (forall z,
        p = JInt z -> z <> 0 ->
        (int_max_str_digits rt <= 0 \/ int_digits z <= int_max_str_digits rt ->
         precip_note rt p
         = inr (str_of_Z z ++ lit " mm precipitation expected"))
        /\ (0 < int_max_str_digits rt < int_digits z ->
            precip_note rt p = inl (ValueError "str" (JInt z)))).
Proof.
  assert (N : forall r : res str,
             (s <- r ;; inr (s ++ lit " mm precipitation expected"))%res
             <> inr (lit "no significant rain")).
  { intros [e|x]; cbn [rbind]; [discriminate|].
    intros [= E]. now apply expected_is_not_rain in E. }
  split; [|split].
  - split.
    + unfold precip_note.
      destruct p as [| b | z | f | s | l | items]; cbn [orb py_eq_int];
        intros H; try (now apply N in H); auto.
      * destruct b; cbn in H; [discriminate H|auto].
      * destruct (Z.eqb_spec z 0) as [E|E]; [subst; auto|].
        now apply N in H.
      * destruct f as [s | s | | s m e].
        -- right; right; right. now exists s.
        -- now apply N in H.
        -- now apply N in H.
        -- rewrite finite_float_not_zero in H. now apply N in H.
    + intros [-> | [-> | [-> | [s ->]]]]; reflexivity.
  - unfold precip_note.
    destruct (_ || _); [now left | now right].
  - intros z -> Hz. unfold precip_note. cbn [orb py_eq_int py_str].
    destruct (Z.eqb_spec z 0) as [E|_]; [contradiction|].
    split; intros H.
    + now rewrite str_of_int_within.
    + now rewrite str_of_int_beyond.
Qed.

Lemma float_eq_Z_value (f : spec_float) (q : Q) (z k : Z) :
  float_value f = Some q -> (q == z # 1)%Q -> float_eq_Z f k = (z =? k).
Proof.
  destruct f as [s | s | | s m e]; cbn [float_value float_eq_Z];
    try discriminate.
  - intros [= <-] H. unfold Qeq in H. cbn in H.
    assert (z = 0) as -> by lia. apply Z.eqb_sym.
  - intros [= <-] H. unfold Qeq in H.
    destruct (Z.leb_spec 0 e) as [He|He]; cbn [Qnum Qden] in H.
    + rewrite Z.mul_1_r in H. rewrite H. now rewrite Z.mul_1_r.
    + assert (Hp : 0 < 2 ^ (- e)) by (apply Z.pow_pos_nonneg; lia).
      rewrite Z2Pos.id in H by exact Hp. rewrite Z.mul_1_r in H. rewrite H.
      destruct (Z.eqb_spec z k) as [->|Hn].
      * apply Z.eqb_refl.
      * apply Z.eqb_neq. nia.
Qed.

(** X8: [_weathercode_to_text] compares by value and never raises. A float
    whose value is the integer [z] gets the phrase of [z], [True] and
    [False] those of 1 and 0, and anything that is not a number
    "Mixed/unknown weather". *)
Theorem weathercode_by_value (v : json) :
  (forall q z,
     number_value v = Some q -> (q == z # 1)%Q ->
     _weathercode_to_text v = _weathercode_to_text (JInt z))
  /\ (forall b,
        _weathercode_to_text (JBool b)
        = _weathercode_to_text (JInt (if b then 1 else 0)))
  /\ match v with
     | JNone | JStr _ | JList _ | JDict _ =>
         _weathercode_to_text v = lit "Mixed/unknown weather"
     | _ => True
     end.
Proof.
  split; [|split].
  - intros q z Hv Hq.
    destruct v as [| b | z' | f | s | l | items]; try discriminate.
    + cbn in Hv. injection Hv as <-. unfold Qeq in Hq. cbn in Hq.
      f_equal. f_equal. lia.
    + cbn [number_value] in Hv.
      unfold _weathercode_to_text, py_in_ints.
      cbn [existsb py_eq_int].
      now rewrite !(float_eq_Z_value f q z _ Hv Hq).
  - reflexivity.
  - destruct v; try exact I; reflexivity.
Qed.

(** X8, on the float 3.0. *)
Lemma weathercode_by_value_witness :
  _weathercode_to_text (JFloat (S754_finite false 3 0))
  = _weathercode_to_text (JInt 3).
Proof.
  refine (proj1 (weathercode_by_value (JFloat (S754_finite false 3 0)))
            (3 # 1) 3 eq_refl _).
  reflexivity.
Defined.

(** X7, on a precipitation of -0.0. *)
Lemma precip_note_cases_witness :
  precip_note CPython.runtime (JFloat (S754_zero true))
  = inr (lit "no significant rain").
Proof.
  apply (proj2 (proj1 (precip_note_cases CPython.runtime
                         (JFloat (S754_zero true))))).
  right; right; right. now exists true.
Defined.

Lemma mapM_first_error {A B} (f : A -> res B) (l1 l2 : list A) (x : A)
    (e : exn) :
  (forall a, In a l1 -> exists b, f a = inr b) ->
  f x = inl e ->
  mapM f (l1 ++ x :: l2) = inl e.
Proof.
  intros Hok Hx. induction l1 as [|a l1 IH]; cbn.
  - now rewrite Hx.
  - destruct (Hok a (or_introl eq_refl)) as [b ->].
    rewrite IH; [reflexivity|]. intros a' Ha'. apply Hok. now right.
Qed.

Section FormatterEdges.

Variable rt : Runtime.

(** X9: a forecast object without "daily" renders as the header line alone,
    "Weather forecast for <place>:" and a newline; so does one whose
    "daily" object lacks "time", whatever the other series hold, as long as
    they can be iterated. *)
Theorem format_forecast_text_header_only (place_name : str) :
  (forall items,
     dict_lookup items (lit "daily") = None ->
     format_forecast_text rt place_name (JDict items)
     = inr (lit "Weather forecast for " ++ place_name ++ lit ":" ++ nl))
  /\ (forall items daily his los ps wcs,
        dict_lookup items (lit "daily") = Some (JDict daily) ->
        dict_lookup daily (lit "time") = None ->
        py_iter (dict_get daily (lit "temperature_2m_max") (JList []))
          = inr his ->
        py_iter (dict_get daily (lit "temperature_2m_min") (JList []))
          = inr los ->
        py_iter (dict_get daily (lit "precipitation_sum") (JList []))
          = inr ps ->
        py_iter (dict_get daily (lit "weathercode") (JList [])) = inr wcs ->
        format_forecast_text rt place_name (JDict items)
        = inr (lit "Weather forecast for " ++ place_name ++ lit ":" ++ nl)).
Proof.
  split.
  - intros items H. unfold format_forecast_text, forecast_lines.
    cbn [py_get]. unfold dict_get at 1. rewrite H. reflexivity.
  - intros items daily his los ps wcs Hd Ht I2 I3 I4 I5.
    unfold format_forecast_text.
    rewrite (forecast_lines_rows rt place_name (JDict items) (JDict daily)
               (JList [])
               (dict_get daily (lit "temperature_2m_max") (JList []))
               (dict_get daily (lit "temperature_2m_min") (JList []))
               (dict_get daily (lit "precipitation_sum") (JList []))
               (dict_get daily (lit "weathercode") (JList []))
               [] his los ps wcs);
      try reflexivity; try assumption.
    + cbn [py_get]. unfold dict_get. now rewrite Hd.
    + cbn [py_get]. unfold dict_get at 1. now rewrite Ht.
Qed.

Lemma format_forecast_text_starts place_name forecast_json text :
  format_forecast_text rt place_name forecast_json = inr text ->
  exists rest, text = forecast_header place_name ++ rest.
Proof.
  unfold format_forecast_text.
  destruct (forecast_lines rt place_name forecast_json) as [e|lines] eqn:L;
    cbn [rbind]; [discriminate|].
  intros [= <-]. revert L. unfold forecast_lines.
  repeat match goal with
  | |- rbind ?r _ = _ -> _ =>
      destruct r; cbn [rbind]; [discriminate|]
  end.
  intros [= <-].
  match goal with |- context [join nl (_ :: ?rows)] => destruct rows end.
  - exists []. cbn [join]. now rewrite app_nil_r.
  - eexists. cbn [join]. reflexivity.
Qed.

(** X10: whenever [format_forecast_text] returns, the text starts with the
    header "Weather forecast for <place>:" and a newline. *)
Theorem format_forecast_text_header place_name forecast_json text :
  format_forecast_text rt place_name forecast_json = inr text ->
  exists rest,
    text = lit "Weather forecast for " ++ place_name ++ lit ":" ++ nl
           ++ rest.
Proof.
  intros H. destruct (format_forecast_text_starts _ _ _ H) as [rest ->].
  exists rest. unfold forecast_header. now rewrite <- !app_assoc.
Qed.

(** X11: the formatter skips nothing. If the day at an index below the
    length of the shortest series cannot be rendered, and the days before it
    can, [format_forecast_text] raises what that day raises, and no text is
    produced. *)
Theorem format_forecast_text_bad_day
    (place_name : str) (forecast_json daily : json)
    (dates tmax tmin precip weathercodes : json)
    (ds his los ps wcs : list json) (k : nat) (e : exn) :
  py_get forecast_json "daily" (JDict []) = inr daily ->
  py_get daily "time" (JList []) = inr dates ->
  py_get daily "temperature_2m_max" (JList []) = inr tmax ->
  py_get daily "temperature_2m_min" (JList []) = inr tmin ->
  py_get daily "precipitation_sum" (JList []) = inr precip ->
  py_get daily "weathercode" (JList []) = inr weathercodes ->
  py_iter dates = inr ds ->
  py_iter tmax = inr his ->
  py_iter tmin = inr los ->
  py_iter precip = inr ps ->
  py_iter weathercodes = inr wcs ->
  let row i := (nth i ds JNone, nth i his JNone, nth i los JNone,
                nth i ps JNone, nth i wcs JNone) in
  (k < Nat.min (List.length ds)
         (Nat.min (List.length his)
            (Nat.min (List.length los)
               (Nat.min (List.length ps) (List.length wcs)))))%nat ->
  (forall i, (i < k)%nat -> exists line, day_line rt (row i) = inr line) ->
  day_line rt (row k) = inl e ->
  format_forecast_text rt place_name forecast_json = inl e.
Proof.
  intros Hd H1 H2 H3 H4 H5 I1 I2 I3 I4 I5 row Hk Hbefore Hbad.
  unfold format_forecast_text.
  rewrite (forecast_lines_rows rt place_name forecast_json daily
             dates tmax tmin precip weathercodes ds his los ps wcs
             Hd H1 H2 H3 H4 H5 I1 I2 I3 I4 I5).
  set (n := Nat.min _ _) in *.
  replace (seq 0 n) with (seq 0 k ++ k :: seq (S k) (n - S k)).
  - rewrite (mapM_first_error _ (seq 0 k) _ k e); [reflexivity| |exact Hbad].
    intros i Hi. apply in_seq in Hi. apply Hbefore. lia.
  - change (k :: seq (S k) (n - S k)) with (seq k (S (n - S k))).
    rewrite <- seq_app. f_equal. lia.
Qed.


End FormatterEdges.

(** X9, on the empty object. *)
Lemma format_forecast_text_header_only_witness :
  format_forecast_text CPython.runtime (lit "Lahore, Pakistan") (JDict [])
  = inr (lit "Weather forecast for Lahore, Pakistan:" ++ nl).
Proof.
  apply (proj1 (format_forecast_text_header_only CPython.runtime
                  (lit "Lahore, Pakistan")) [] eq_refl).
Defined.

(** X10, on five dates and three maxima. *)
Lemma format_forecast_text_header_witness :
  exists text rest,
    format_forecast_text CPython.runtime (lit "Lahore, Pakistan")
      Sample.uneven = inr text
    /\ text = lit "Weather forecast for " ++ lit "Lahore, Pakistan"
              ++ lit ":" ++ nl ++ rest.
Proof.
  eexists.
  assert (H : format_forecast_text CPython.runtime (lit "Lahore, Pakistan")
                Sample.uneven = inr _) by (lazy; reflexivity).
  destruct (format_forecast_text_header CPython.runtime
              (lit "Lahore, Pakistan") Sample.uneven _ H) as [rest E].
  exists rest. split; [exact H | exact E].
Defined.

(** X11, on three days, the minimum of the second one missing. *)
Lemma format_forecast_text_bad_day_witness :
  format_forecast_text CPython.runtime (lit "Lahore, Pakistan")
    Sample.with_null = inl (TypeError "int" JNone).
Proof.
  refine (format_forecast_text_bad_day CPython.runtime
            (lit "Lahore, Pakistan") Sample.with_null
            _ _ _ _ _ _ _ _ _ _ _ 1%nat (TypeError "int" JNone)
            eq_refl eq_refl eq_refl eq_refl eq_refl eq_refl
            eq_refl eq_refl eq_refl eq_refl eq_refl _ _ _).
  - cbn. lia.
  - intros i Hi. destruct i as [|i]; [|lia]. eexists. lazy. reflexivity.
  - reflexivity.
Defined.


(** ** The summarizer, further *)

Lemma lstrip_head (s : str) (c : N) (rest : str) :
  lstrip s = c :: rest -> py_isspace c = false.
Proof.
  induction s as [|a s IH]; cbn; [discriminate|].
  destruct (py_isspace a) eqn:E; [exact IH|].
  now intros [= <- _].
Qed.

(** [strip] removes whitespace at both ends and nothing else. *)
Lemma py_strip_spec (s : str) :
  exists pre post,
    s = pre ++ py_strip s ++ post
    /\ forallb py_isspace pre = true
    /\ forallb py_isspace post = true
    /\ (forall c rest, py_strip s = c :: rest -> py_isspace c = false)
    /\ (forall c front, py_strip s = front ++ [c] -> py_isspace c = false).
Proof.
  destruct (lstrip_suffix s) as [pre [Hs Hpre]].
  destruct (lstrip_suffix (rev (lstrip s))) as [q [Hq Hqs]].
  assert (Ht : lstrip s = py_strip s ++ rev q).
  { unfold py_strip. rewrite <- rev_app_distr, <- Hq.
    now rewrite rev_involutive. }
  exists pre, (rev q). repeat split.
  - now rewrite <- Ht.
  - exact Hpre.
  - rewrite forallb_forall in *. intros x Hx. apply Hqs.
    now apply in_rev.
  - intros c rest E. rewrite E in Ht. cbn in Ht.
    now apply lstrip_head in Ht.
  - intros c front E. unfold py_strip in E.
    apply (f_equal (@rev N)) in E.
    rewrite rev_involutive, rev_app_distr in E. cbn in E.
    now apply lstrip_head in E.
Qed.

Section SummarizerEdges.

Variable rt : Runtime.

(** X13: with a credential at hand, [hf_summarize] posts once and once
    only, whatever comes back: to the inference URL followed by the model,
    with the credential as a bearer token, the whole text -- not its first
    2000 characters -- after the instruction, 120 new tokens at most and a
    temperature of 0.1, and a time-out of 60 seconds. *)
Theorem hf_summarize_one_post text model hf_token max_length w lg token :
  (if opt_truthy hf_token then hf_token else environ w "HF_API_TOKEN")
    = Some token ->
  token <> [] ->
  snd (hf_summarize rt text model hf_token max_length w lg) =
  lg ++ [POST (HF_INFERENCE_URL ++ model)
           [("Authorization"%string, lit "Bearer " ++ token);
            ("Accept"%string, lit "application/json")]
           (JDict
              [(lit "inputs",
                JStr (lit "Summarize the following weather report in a short, user-friendly paragraph:"
                      ++ nl ++ nl ++ text));
               (lit "parameters",
                JDict [(lit "max_new_tokens", JInt 120);
                       (lit "temperature", JFloat float_0_1)])])
           60].
Proof.
  intros Ht Hne. rewrite hf_summarize_token, Ht.
  destruct token as [|c t]; [congruence|].
  rewrite hf_attempt_log.
  destruct (rbind _ _); reflexivity.
Qed.

(** X14: a non-empty credential passed to [hf_summarize] is the one used,
    whatever the environment holds; an empty one counts as none, and the
    environment is asked. *)
Theorem hf_summarize_token_precedence text model max_length w lg :
  (forall c t env,
     hf_summarize rt text model (Some (c :: t)) max_length
       {| environ := env; today := today w; respond := respond w |} lg
     = hf_summarize rt text model (Some (c :: t)) max_length w lg)
  /\ hf_summarize rt text model (Some []) max_length w lg
     = hf_summarize rt text model None max_length w lg
  /\ (forall c t,
        environ w "HF_API_TOKEN" = Some (c :: t) ->
        hf_summarize rt text model (Some []) max_length w lg
        = hf_summarize rt text model (Some (c :: t)) max_length w lg).
Proof.
  split; [|split].
  - intros c t env. rewrite !hf_summarize_token. cbn [opt_truthy].
    rewrite !hf_attempt_log. reflexivity.
  - rewrite !hf_summarize_token. reflexivity.
  - intros c t H. rewrite !hf_summarize_token. cbn [opt_truthy].
    now rewrite H.
Qed.

(** X15: a generated text comes back with the whitespace at its two ends
    removed and nothing else changed: it is the generated text between a
    run of whitespace before and one after, and it neither starts nor ends
    with whitespace. *)
Theorem hf_parse_trims (data : json) (g : str) :
  shape_of data = SeqFirstGenerated (JStr g)
  \/ shape_of data = ObjGenerated (JStr g)
  \/ shape_of data = BareString g ->
  exists s pre post,
    hf_parse rt data = inr s
    /\ g = pre ++ s ++ post
    /\ forallb py_isspace pre = true
    /\ forallb py_isspace post = true
    /\ (forall c rest, s = c :: rest -> py_isspace c = false)
    /\ (forall c front, s = front ++ [c] -> py_isspace c = false).
Proof.
  intros H.
  assert (E : hf_parse rt data = inr (py_strip g)).
  { pose proof (hf_parse_cases rt data) as C.
    destruct H as [H | [H | H]]; rewrite H in C; exact C. }
  destruct (py_strip_spec g) as [pre [post P]].
  exists (py_strip g), pre, post. split; [exact E | exact P].
Qed.

End SummarizerEdges.

(** X13, on an endpoint that times out. *)
Lemma hf_summarize_one_post_witness :
  snd (hf_summarize CPython.runtime Sample.sunny HF_MODEL None 200
         (Sample.summarizing (inl (RequestError (lit "timed out")))) [])
  = [hf_request Sample.sunny HF_MODEL (lit "hf_x")].
Proof.
  refine (hf_summarize_one_post CPython.runtime Sample.sunny HF_MODEL None
            200 (Sample.summarizing (inl (RequestError (lit "timed out"))))
            [] (lit "hf_x") eq_refl _).
  discriminate.
Defined.

(** X14, on an empty credential and one in the environment. *)
Lemma hf_summarize_token_precedence_witness :
  hf_summarize CPython.runtime Sample.sunny HF_MODEL (Some []) 200
    (Sample.answering (lit " Sunny all day. ")) []
  = hf_summarize CPython.runtime Sample.sunny HF_MODEL (Some (lit "hf_x"))
      200 (Sample.answering (lit " Sunny all day. ")) [].
Proof.
  apply (proj2 (proj2 (hf_summarize_token_precedence CPython.runtime
                         Sample.sunny HF_MODEL 200
                         (Sample.answering (lit " Sunny all day. ")) []))
           104%N (lit "f_x") eq_refl).
Defined.

(** X15, on a generated text between spaces. *)
Lemma hf_parse_trims_witness :
  exists s pre post,
    hf_parse CPython.runtime (Sample.generated (lit " Sunny all day. "))
    = inr s
    /\ lit " Sunny all day. " = pre ++ s ++ post
    /\ forallb py_isspace pre = true
    /\ forallb py_isspace post = true
    /\ (forall c rest, s = c :: rest -> py_isspace c = false)
    /\ (forall c front, s = front ++ [c] -> py_isspace c = false).
Proof.
  apply (hf_parse_trims CPython.runtime
           (Sample.generated (lit " Sunny all day. "))
           (lit " Sunny all day. ") (or_introl eq_refl)).
Defined.

(** ** The orchestrator, further *)

Section OrchestratorEdges.

Variable rt : Runtime.

Lemma fetch_open_meteo_requests lat lon days w lg :
  snd (fetch_open_meteo rt lat lon days w lg) = lg
  \/ exists end_date,
       snd (fetch_open_meteo rt lat lon days w lg)
       = lg ++ [GET FORECAST_URL
                  (forecast_params rt lat lon (today w) end_date) 15].
Proof.
  unfold fetch_open_meteo, bind, get_today, lift, http, forecast_params.
  destruct (timedelta_days (days - 1)) as [e|delta]; [now left|].
  cbv beta iota.
  destruct (date_add (today w) delta) as [e|end_date]; [now left|].
  right. exists end_date. reflexivity.
Qed.

Lemma hf_summarize_requests text model hf_token max_length w lg :
  snd (hf_summarize rt text model hf_token max_length w lg) = lg
  \/ exists token,
       snd (hf_summarize rt text model hf_token max_length w lg)
       = lg ++ [hf_request text model token].
Proof.
  rewrite hf_summarize_token.
  destruct (if opt_truthy hf_token then hf_token
            else environ w "HF_API_TOKEN") as [[|c t]|]; try now left.
  right. exists (c :: t). rewrite hf_attempt_log.
  destruct (rbind _ _); reflexivity.
Qed.

(** X16: when geocoding raises, the run returns "Error during geocoding: "
    followed by [str] of the exception, with an empty structure, and the
    geocoding request is the only one issued. *)
Theorem geocoding_error_reported place days use_hf w e :
  py_strip place <> [] ->
  fst (geocode_place (py_strip place) w []) = inl e ->
  run (get_forecast_for_place rt place days use_hf) w =
  (inr (lit "Error during geocoding: " ++ str_of_exn rt e, JDict []),
   [GET GEOCODE_URL (geocode_params (py_strip place)) 10]).
Proof.
  intros Hp Hg. rewrite get_forecast_for_place_steps.
  destruct (py_strip place) as [|c t]; [congruence|].
  rewrite geocode_place_steps in *. cbn [fst] in Hg. rewrite Hg.
  reflexivity.
Qed.

(** X17: when geocoding finds nothing -- it returns [None], or a first
    result that is false, such as an empty object -- the run returns
    "Location not found: " followed by the place as typed, trimmed, with an
    empty structure, and no forecast is requested. *)
Theorem location_not_found place days use_hf w geo :
  py_strip place <> [] ->
  fst (geocode_place (py_strip place) w []) = inr geo ->
  py_truthy geo = false ->
  run (get_forecast_for_place rt place days use_hf) w =
  (inr (lit "Location not found: " ++ py_strip place, JDict []),
   [GET GEOCODE_URL (geocode_params (py_strip place)) 10]).
Proof.
  intros Hp Hg Ht. rewrite get_forecast_for_place_steps.
  destruct (py_strip place) as [|c t]; [congruence|].
  rewrite geocode_place_steps in *. cbn [fst] in Hg. rewrite Hg, Ht.
  reflexivity.
Qed.

(** X18: when the forecast fetch raises, the run returns
    "Error fetching forecast for <name>, <country>: " followed by [str] of
    the exception, with an empty structure; nothing is formatted and
    nothing is posted. *)
Theorem forecast_error_reported
    place days use_hf w items lg1 e lg2 name country :
  py_strip place <> [] ->
  geocode_place (py_strip place) w [] = (inr (JDict items), lg1) ->
  items <> [] ->
  py_str rt (dict_get items (lit "name") JNone) = inr name ->
  py_str rt (dict_get items (lit "country") JNone) = inr country ->
  fetch_open_meteo rt (dict_get items (lit "latitude") JNone)
    (dict_get items (lit "longitude") JNone) days w lg1 = (inl e, lg2) ->
  run (get_forecast_for_place rt place days use_hf) w =
  (inr (lit "Error fetching forecast for "
        ++ name ++ lit ", " ++ country ++ lit ": "
        ++ str_of_exn rt e, JDict []), lg2)
  /\ forall url headers body timeout,
       ~ In (POST url headers body timeout) lg2.
Proof.
  intros Hp Hg Hi Hn Hc Hf. split.
  - rewrite get_forecast_for_place_steps.
    destruct (py_strip place) as [|c t]; [congruence|].
    rewrite Hg. destruct items as [|kv items]; [congruence|].
    cbn [py_truthy negb]. rewrite Hn, Hc. cbv zeta. rewrite Hf.
    rewrite <- ?app_assoc; reflexivity.
  - intros url headers body timeout Hin.
    pose proof (geocode_place_steps (py_strip place) w []) as G.
    rewrite Hg in G. injection G as _ G.
    destruct (fetch_open_meteo_requests
                (dict_get items (lit "latitude") JNone)
                (dict_get items (lit "longitude") JNone) days w lg1)
      as [L | [end_date L]]; rewrite Hf in L; cbn [snd] in L; subst lg2 lg1;
      cbn in Hin; intuition discriminate.
Qed.

(** X19: when a summary is asked for and no credential is set, the run
    returns the notice "(HF token not set -- set HF_API_TOKEN to enable
    model summarization)" (with a dash), a blank line and the formatter's
    text, next to the forecast, and nothing is posted. *)
Theorem summary_without_token
    place days w items lg1 forecast lg2 raw name country :
  py_strip place <> [] ->
  geocode_place (py_strip place) w [] = (inr (JDict items), lg1) ->
  items <> [] ->
  fetch_open_meteo rt (dict_get items (lit "latitude") JNone)
    (dict_get items (lit "longitude") JNone) days w lg1
    = (inr forecast, lg2) ->
  py_str rt (dict_get items (lit "name") JNone) = inr name ->
  py_str rt (dict_get items (lit "country") JNone) = inr country ->
  format_forecast_text rt (name ++ lit ", " ++ country) forecast = inr raw ->
  opt_truthy (environ w "HF_API_TOKEN") = false ->
  run (get_forecast_for_place rt place days true) w =
  (inr (lit "(HF token not set " ++ em_dash
        ++ lit " set HF_API_TOKEN to enable model summarization)"
        ++ nl ++ nl ++ raw, forecast), lg2)
  /\ exists geocode_query forecast_query,
       lg2 = [GET GEOCODE_URL geocode_query 10;
              GET FORECAST_URL forecast_query 15].
Proof.
  intros Hp Hg Hi Hf Hn Hc Hfmt Ht. split.
  - rewrite (successful_run rt place days true w items lg1 forecast lg2 raw
               name country Hp Hg Hi Hf Hn Hc Hfmt).
    rewrite Ht. cbn [andb negb]. unfold token_not_set.
    rewrite <- ?app_assoc; reflexivity.
  - destruct (geocode_place_log (py_strip place) w []) as [gp Hgp].
    rewrite Hg in Hgp. cbn in Hgp. subst lg1.
    destruct (fetch_open_meteo_log rt _ _ _ _ _ _ _ Hf) as [fp [-> _]].
    now exists gp, fp.
Qed.

(** X20: the orchestrator does not catch what happens between its two
    [try] blocks or after them. A first geocoding result that is true but
    not an object -- a string, a number, a list -- makes the run raise
    [AttributeError]; a name or a country that [str] cannot print makes it
    raise what [str] raises, before any forecast is requested; and a
    forecast the formatter cannot render makes it raise what the formatter
    raises. No text is returned. *)
Theorem orchestrator_raises place days use_hf w :
  (forall geo lg1,
     py_strip place <> [] ->
     geocode_place (py_strip place) w [] = (inr geo, lg1) ->
     py_truthy geo = true ->
     (forall items, geo <> JDict items) ->
     run (get_forecast_for_place rt place days use_hf) w
     = (inl (AttributeError geo "get"), lg1))
  /\ (forall items lg1 e,
        py_strip place <> [] ->
        geocode_place (py_strip place) w [] = (inr (JDict items), lg1) ->
        items <> [] ->
        py_str rt (dict_get items (lit "name") JNone) = inl e
        \/ ((exists name,
               py_str rt (dict_get items (lit "name") JNone) = inr name)
            /\ py_str rt (dict_get items (lit "country") JNone) = inl e) ->
        run (get_forecast_for_place rt place days use_hf) w = (inl e, lg1))
  /\ (forall items lg1 forecast lg2 name country e,
        py_strip place <> [] ->
        geocode_place (py_strip place) w [] = (inr (JDict items), lg1) ->
        items <> [] ->
        py_str rt (dict_get items (lit "name") JNone) = inr name ->
        py_str rt (dict_get items (lit "country") JNone) = inr country ->
        fetch_open_meteo rt (dict_get items (lit "latitude") JNone)
          (dict_get items (lit "longitude") JNone) days w lg1
          = (inr forecast, lg2) ->
        format_forecast_text rt (name ++ lit ", " ++ country) forecast
          = inl e ->
        run (get_forecast_for_place rt place days use_hf) w = (inl e, lg2)).
Proof.
  split; [|split].
  - intros geo lg1 Hp Hg Ht Hn. rewrite get_forecast_for_place_steps.
    destruct (py_strip place) as [|c t]; [congruence|].
    rewrite Hg, Ht. cbn [negb].
    destruct geo; try reflexivity. now destruct (Hn items).
  - intros items lg1 e Hp Hg Hi H. rewrite get_forecast_for_place_steps.
    destruct (py_strip place) as [|c t]; [congruence|].
    rewrite Hg. destruct items as [|kv items]; [congruence|].
    cbn [py_truthy negb].
    destruct H as [-> | [[name ->] ->]]; reflexivity.
  - intros items lg1 forecast lg2 name country e Hp Hg Hi Hn Hc Hf Hfmt.
    rewrite get_forecast_for_place_steps.
    destruct (py_strip place) as [|c t]; [congruence|].
    rewrite Hg. destruct items as [|kv items]; [congruence|].
    cbn [py_truthy negb]. rewrite Hn, Hc. cbv zeta. now rewrite Hf, Hfmt.
Qed.

Lemma fetch_open_meteo_returned lat lon days w lg forecast lg' :
  fetch_open_meteo rt lat lon days w lg = (inr forecast, lg') ->
  exists end_date,
    lg' = lg ++ [GET FORECAST_URL
                   (forecast_params rt lat lon (today w) end_date) 15].
Proof.
  unfold fetch_open_meteo, bind, get_today, lift, http, forecast_params.
  destruct (timedelta_days (days - 1)) as [e|delta]; [discriminate|].
  cbv beta iota.
  destruct (date_add (today w) delta) as [e|end_date]; [discriminate|].
  cbv beta iota zeta. intros [= _ <-]. now exists end_date.
Qed.

(** X21: a run issues at most three requests, each at most once and in
    this order: the geocoding GET for the trimmed place, the forecast GET
    for a window starting today, the summarization POST for the default
    model. It issues none exactly when the place is blank. *)
Theorem requests_in_order place days use_hf w :
  exists lat lon end_date raw token,
    let G := GET GEOCODE_URL (geocode_params (py_strip place)) 10 in
    let F := GET FORECAST_URL
               (forecast_params rt lat lon (today w) end_date) 15 in
    let P := hf_request raw HF_MODEL token in
    let lg := snd (run (get_forecast_for_place rt place days use_hf) w) in
    (py_strip place = [] /\ lg = [])
    \/ (py_strip place <> []
        /\ (lg = [G] \/ lg = [G; F] \/ lg = [G; F; P])).
Proof.
  rewrite get_forecast_for_place_steps.
  destruct (py_strip place) as [|c t] eqn:Hp.
  { exists JNone, JNone, 0, [], []. now left. }
  pose proof (geocode_place_steps (c :: t) w []) as G.
  destruct (geocode_place (c :: t) w []) as [[e|geo] lg1];
    injection G as _ ->; cbn [app].
  { exists JNone, JNone, 0, [], [].
    right. split; [discriminate|]. now left. }
  destruct (negb (py_truthy geo)).
  { exists JNone, JNone, 0, [], []. right. split; [discriminate|]. now left. }
  destruct geo as [| b | z | f | s | l | items];
    try (exists JNone, JNone, 0, [], []; right; split; [discriminate|];
         now left).
  destruct (py_str rt (dict_get items (lit "name") JNone)) as [e|n_str];
    [exists JNone, JNone, 0, [], []; right; split; [discriminate|];
     now left|].
  destruct (py_str rt (dict_get items (lit "country") JNone)) as [e|c_str];
    [exists JNone, JNone, 0, [], []; right; split; [discriminate|];
     now left|].
  cbv zeta.
  set (lat := dict_get items (lit "latitude") JNone).
  set (lon := dict_get items (lit "longitude") JNone).
  set (lg1 := [GET GEOCODE_URL (geocode_params (c :: t)) 10]).
  destruct (fetch_open_meteo rt lat lon days w lg1) as [[e|forecast] lg2]
    eqn:F.
  { pose proof (fetch_open_meteo_requests lat lon days w lg1) as L.
    rewrite F in L. cbn [snd] in L. destruct L as [-> | [end_date ->]].
    - exists JNone, JNone, 0, [], []. right. split; [discriminate|].
      now left.
    - exists lat, lon, end_date, [], []. right. split; [discriminate|].
      right. now left. }
  apply fetch_open_meteo_returned in F as [end_date ->].
  destruct (format_forecast_text rt _ forecast) as [e|raw].
  { exists lat, lon, end_date, [], []. right. split; [discriminate|].
    right. now left. }
  destruct (use_hf && opt_truthy (environ w "HF_API_TOKEN")).
  - pose proof (hf_summarize_requests raw HF_MODEL
                  (environ w "HF_API_TOKEN") 200 w
                  (lg1 ++ [GET FORECAST_URL
                             (forecast_params rt lat lon (today w) end_date)
                             15])) as P.
    destruct (hf_summarize rt raw HF_MODEL _ 200 w _) as [[e|sm] lg3];
      cbn [snd] in P |- *; destruct P as [-> | [token ->]].
    + exists lat, lon, end_date, [], []. right. split; [discriminate|].
      right. now left.
    + exists lat, lon, end_date, raw, token. right.
      split; [discriminate|]. right. now right.
    + exists lat, lon, end_date, [], []. right. split; [discriminate|].
      right. now left.
    + exists lat, lon, end_date, raw, token. right.
      split; [discriminate|]. right. now right.
  - exists lat, lon, end_date, [], []. right. split; [discriminate|].
    right. left.
    destruct (use_hf && negb (opt_truthy (environ w "HF_API_TOKEN")));
      reflexivity.
Qed.

(** X22: when the summarization request raises, or its body cannot be
    parsed, the forecast is not lost: the run returns the failure notice
    with [str] of the exception, a blank line and the first 2000 characters
    of the formatter's text, next to the forecast. *)
Theorem summary_failure_keeps_forecast
    place days w items lg1 forecast lg2 raw name country token e :
  py_strip place <> [] ->
  geocode_place (py_strip place) w [] = (inr (JDict items), lg1) ->
  items <> [] ->
  fetch_open_meteo rt (dict_get items (lit "latitude") JNone)
    (dict_get items (lit "longitude") JNone) days w lg1
    = (inr forecast, lg2) ->
  py_str rt (dict_get items (lit "name") JNone) = inr name ->
  py_str rt (dict_get items (lit "country") JNone) = inr country ->
  format_forecast_text rt (name ++ lit ", " ++ country) forecast = inr raw ->
  environ w "HF_API_TOKEN" = Some token ->
  token <> [] ->
  rbind (respond w lg2 (hf_request raw HF_MODEL token)) (hf_parse rt)
    = inl e ->
  run (get_forecast_for_place rt place days true) w =
  (inr (lit "(Hugging Face summarization failed: " ++ str_of_exn rt e
        ++ lit ")" ++ nl ++ nl ++ firstn 2000 raw, forecast),
   lg2 ++ [hf_request raw HF_MODEL token]).
Proof.
  intros Hp Hg Hi Hf Hn Hc Hfmt Ht Hne He.
  rewrite (successful_run rt place days true w items lg1 forecast lg2 raw
             name country Hp Hg Hi Hf Hn Hc Hfmt).
  rewrite Ht. destruct token as [|c t]; [congruence|].
  cbn [andb opt_truthy]. rewrite hf_summarize_token. cbn [opt_truthy].
  rewrite hf_attempt_log, He. unfold hf_failed.
  rewrite <- ?app_assoc; reflexivity.
Qed.

(** X23: the header names the place as the geocoder knows it, not as
    typed, and a missing "country" shows as the word None: when the first
    result has a string "name" and no "country" and no summary is asked
    for, the text starts with "Weather forecast for <name>, None:". *)
Theorem header_without_country
    place days w items lg1 forecast lg2 raw name :
  py_strip place <> [] ->
  geocode_place (py_strip place) w [] = (inr (JDict items), lg1) ->
  dict_lookup items (lit "name") = Some (JStr name) ->
  dict_lookup items (lit "country") = None ->
  fetch_open_meteo rt (dict_get items (lit "latitude") JNone)
    (dict_get items (lit "longitude") JNone) days w lg1
    = (inr forecast, lg2) ->
  format_forecast_text rt (name ++ lit ", None") forecast = inr raw ->
  exists text rest,
    run (get_forecast_for_place rt place days false) w
    = (inr (text, forecast), lg2)
    /\ text = lit "Weather forecast for " ++ name ++ lit ", None:" ++ nl
              ++ rest.
Proof.
  intros Hp Hg Hn Hc Hf Hfmt.
  assert (Hi : items <> []) by (intros ->; discriminate).
  assert (Hn' : py_str rt (dict_get items (lit "name") JNone) = inr name).
  { unfold dict_get. now rewrite Hn. }
  assert (Hc' : py_str rt (dict_get items (lit "country") JNone)
                = inr (lit "None")).
  { unfold dict_get. now rewrite Hc. }
  change (name ++ lit ", None") with (name ++ lit ", " ++ lit "None") in Hfmt.
  rewrite (successful_run rt place days false w items lg1 forecast lg2 raw
             name (lit "None") Hp Hg Hi Hf Hn' Hc' Hfmt).
  cbn [andb].
  destruct (format_forecast_text_starts rt _ _ _ Hfmt) as [rest ->].
  exists (forecast_header (name ++ lit ", None") ++ rest), rest.
  split; [reflexivity|]. unfold forecast_header.
  rewrite <- ?app_assoc. reflexivity.
Qed.

End OrchestratorEdges.

(** X16, on a network that is down. *)
Lemma geocoding_error_reported_witness :
  run (get_forecast_for_place CPython.runtime (lit "Lahore") 3 true)
    Sample.offline =
  (inr (lit "Error during geocoding: connection refused", JDict []),
   [GET GEOCODE_URL (geocode_params (lit "Lahore")) 10]).
Proof.
  refine (geocoding_error_reported CPython.runtime (lit "Lahore") 3 true
            Sample.offline (RequestError (lit "connection refused")) _ _);
    [discriminate | reflexivity].
Defined.

(** X17, on a place typed between spaces that the geocoder does not know. *)
Lemma location_not_found_witness :
  run (get_forecast_for_place CPython.runtime (lit " Atlantis ") 3 true)
    (Sample.service None (inr (JDict [(lit "results", JList [])]))
       (inr JNone) (inr JNone)) =
  (inr (lit "Location not found: Atlantis", JDict []),
   [GET GEOCODE_URL (geocode_params (lit "Atlantis")) 10]).
Proof.
  refine (location_not_found CPython.runtime (lit " Atlantis ") 3 true
            (Sample.service None (inr (JDict [(lit "results", JList [])]))
               (inr JNone) (inr JNone)) JNone _ _ _);
    [discriminate | reflexivity | reflexivity].
Defined.

(** X18, on a forecast request that times out. *)
Lemma forecast_error_reported_witness :
  exists lg,
    run (get_forecast_for_place CPython.runtime (lit "Lahore") 3 true)
      (Sample.service (Some (lit "hf_x")) (inr Sample.lahore)
         (inl (RequestError (lit "timed out"))) (inr JNone)) =
    (inr (lit "Error fetching forecast for Lahore, Pakistan: timed out",
          JDict []), lg).
Proof.
  eexists.
  refine (proj1 (forecast_error_reported CPython.runtime (lit "Lahore") 3
                   true
                   (Sample.service (Some (lit "hf_x")) (inr Sample.lahore)
                      (inl (RequestError (lit "timed out"))) (inr JNone))
                   Sample.lahore_items _
                   (RequestError (lit "timed out")) _
                   (lit "Lahore") (lit "Pakistan") _ _ _ _ _ _));
    [discriminate | lazy; reflexivity | discriminate | reflexivity
    | reflexivity | lazy; reflexivity].
Defined.

(** X19, on a run with no credential in the environment. *)
Lemma summary_without_token_witness :
  exists raw lg,
    run (get_forecast_for_place CPython.runtime (lit "Lahore") 3 true)
      (Sample.service None (inr Sample.lahore) (inr Sample.uneven)
         (inr JNone)) =
    (inr (lit "(HF token not set " ++ em_dash
          ++ lit " set HF_API_TOKEN to enable model summarization)"
          ++ nl ++ nl ++ raw, Sample.uneven), lg).
Proof.
  eexists _, _.
  refine (proj1 (summary_without_token CPython.runtime (lit "Lahore") 3
                   (Sample.service None (inr Sample.lahore)
                      (inr Sample.uneven) (inr JNone))
                   Sample.lahore_items _ Sample.uneven _ _
                   (lit "Lahore") (lit "Pakistan") _ _ _ _ _ _ _ _));
    [discriminate | lazy; reflexivity | discriminate
    | lazy; reflexivity | reflexivity | reflexivity | lazy; reflexivity
    | reflexivity].
Defined.

(** X20, on a geocoder whose first result is a bare string. *)
Lemma orchestrator_raises_witness :
  exists lg,
    run (get_forecast_for_place CPython.runtime (lit "Lahore") 3 true)
      (Sample.service None
         (inr (JDict [(lit "results", JList [JStr (lit "Lahore")])]))
         (inr Sample.uneven) (inr JNone)) =
    (inl (AttributeError (JStr (lit "Lahore")) "get"), lg).
Proof.
  eexists.
  refine (proj1 (orchestrator_raises CPython.runtime (lit "Lahore") 3 true
                   (Sample.service None
                      (inr (JDict [(lit "results",
                                    JList [JStr (lit "Lahore")])]))
                      (inr Sample.uneven) (inr JNone)))
            (JStr (lit "Lahore")) _ _ _ _ _);
    [discriminate | lazy; reflexivity | reflexivity | discriminate].
Defined.

(** X22, on a summarization request that times out. *)
Lemma summary_failure_keeps_forecast_witness :
  exists raw lg,
    run (get_forecast_for_place CPython.runtime (lit "Lahore") 3 true)
      (Sample.service (Some (lit "hf_x")) (inr Sample.lahore)
         (inr Sample.uneven) (inl (RequestError (lit "timed out")))) =
    (inr (lit "(Hugging Face summarization failed: " ++ lit "timed out"
          ++ lit ")" ++ nl ++ nl ++ firstn 2000 raw, Sample.uneven), lg).
Proof.
  eexists _, _.
  refine (summary_failure_keeps_forecast CPython.runtime (lit "Lahore") 3
            (Sample.service (Some (lit "hf_x")) (inr Sample.lahore)
               (inr Sample.uneven) (inl (RequestError (lit "timed out"))))
            Sample.lahore_items _ Sample.uneven _ _
            (lit "Lahore") (lit "Pakistan") (lit "hf_x")
            (RequestError (lit "timed out")) _ _ _ _ _ _ _ _ _ _);
    [discriminate | lazy; reflexivity | discriminate
    | lazy; reflexivity | reflexivity | reflexivity | lazy; reflexivity
    | reflexivity | discriminate | reflexivity].
Defined.

(** X23, on a first result without a country. *)
Lemma header_without_country_witness :
  exists text rest lg,
    run (get_forecast_for_place CPython.runtime (lit "Lahore") 3 false)
      (Sample.service None
         (inr (JDict [(lit "results",
                       JList [JDict [(lit "name", JStr (lit "Lahore"));
                                     (lit "latitude", JInt 31);
                                     (lit "longitude", JInt 74)]])]))
         (inr Sample.uneven) (inr JNone)) =
    (inr (text, Sample.uneven), lg)
    /\ text = lit "Weather forecast for " ++ lit "Lahore" ++ lit ", None:"
              ++ nl ++ rest.
Proof.
  destruct (header_without_country CPython.runtime (lit "Lahore") 3
              (Sample.service None
                 (inr (JDict [(lit "results",
                               JList [JDict [(lit "name",
                                              JStr (lit "Lahore"));
                                             (lit "latitude", JInt 31);
                                             (lit "longitude", JInt 74)]])]))
                 (inr Sample.uneven) (inr JNone))
              [(lit "name", JStr (lit "Lahore")); (lit "latitude", JInt 31);
               (lit "longitude", JInt 74)]
              [GET GEOCODE_URL (geocode_params (lit "Lahore")) 10]
              Sample.uneven
              [GET GEOCODE_URL (geocode_params (lit "Lahore")) 10;
               GET FORECAST_URL
                 (forecast_params CPython.runtime (JInt 31) (JInt 74)
                    738886 738888) 15]
              (match format_forecast_text CPython.runtime
                       (lit "Lahore" ++ lit ", None") Sample.uneven with
               | inr raw => raw
               | inl _ => []
               end)
              (lit "Lahore"))
    as [text [rest H]];
    [discriminate | reflexivity | reflexivity | reflexivity | reflexivity
    | reflexivity | ].
  exists text, rest. eexists. exact H.
Defined.
